(** * auto_crypto: the job execution and persistence framework

    A shallow embedding of [library/database.py], [library/data.py] and
    [library/job.py], and the properties of the specification that concern
    them.

    Layout:
    - [Py]        the Python values, strings and numbers the code handles;
    - [Database]  the SQL text built by [Database] (database.py);
    - [Engine]    what the emitted statements mean for the stored tables;
    - [Eff]       the state-and-exception monad of the object methods;
    - [DAO], [Signal], [StoredValue], [Job]  the classes of database.py,
      data.py and job.py;
    - [Demo]      a small database, a clock and a job to run the code on;
    - the theorems, grouped by the class they are about.

    What is outside the model: SQLite (its effect on the tables is given
    by [Engine]), the SMTP transport and the log files (a notifier call
    and a log record are kept in the world), MD5 (kept symbolic), and the
    binary rounding of floats (a float is an exact decimal). [Job.__init__]
    is not embedded: its date formats are constants of library/constants.py;
    the theorems are about the methods, run from any state of the job. An
    exception is an [Exception] with its text; strings are byte strings. *)

From Stdlib Require Import String Ascii ZArith List Lia Bool DecimalString.
From Stdlib Require Import Sorted Permutation.
Import ListNotations.
Local Open Scope string_scope.
Local Open Scope Z_scope.

(* ===================================================================== *)
(** * Python values *)
(* ===================================================================== *)

Module Py.

(** The double-quote character, and the single quote that replaces it. *)
Definition dq : string := String "034"%char EmptyString.
Definition sq : string := "'".

(** [s.replace(old, new)] for a one-character [old]. *)
Fixpoint replace_char (old : ascii) (new : string) (s : string) : string :=
  match s with
  | EmptyString => EmptyString
  | String c rest =>
      if Ascii.eqb c old then new ++ replace_char old new rest
      else String c (replace_char old new rest)
  end.

(** [c in s] for a character. *)
Fixpoint has_char (c : ascii) (s : string) : bool :=
  match s with
  | EmptyString => false
  | String c' rest => Ascii.eqb c' c || has_char c rest
  end.

(** [str.upper] on byte strings: the letters a-z are shifted to A-Z and
    every other byte is kept. *)
Definition upper_char (c : ascii) : ascii :=
  let n := nat_of_ascii c in
  if ((97 <=? n) && (n <=? 122))%nat then ascii_of_nat (n - 32) else c.

Fixpoint upper (s : string) : string :=
  match s with
  | EmptyString => EmptyString
  | String c rest => String (upper_char c) (upper rest)
  end.

(** [x in l] for a list of strings. *)
Definition str_in (x : string) (l : list string) : bool :=
  existsb (String.eqb x) l.

(** ** Numbers

    A Python [float] is modelled by an exact decimal [mant / 10^scale]:
    comparison, [round] and [timedelta.total_seconds] are then exact, and
    the binary rounding of IEEE doubles is left out of the model. *)
Record dec : Type := mkDec { mant : Z; scale : nat }.

Definition pow10 (k : nat) : Z := 10 ^ Z.of_nat k.

(** Same number, possibly written with another scale. *)
Definition dec_eq (x y : dec) : Prop :=
  mant x * pow10 (scale y) = mant y * pow10 (scale x).

Definition dec_leb (x y : dec) : bool :=
  mant x * pow10 (scale y) <=? mant y * pow10 (scale x).

Definition dec_of_Z (n : Z) : dec := mkDec n 0.

(** Division rounding to the nearest integer, ties to the even one: the
    rule of the built-in [round]. The divisor is positive. *)
Definition div_half_even (a b : Z) : Z :=
  let q := a / b in
  let r := a mod b in
  if 2 * r <? b then q
  else if b <? 2 * r then q + 1
  else if Z.even q then q else q + 1.

(** [round(x, ndigits)] on a float. *)
Definition round_float (x : dec) (ndigits : Z) : dec :=
  if 0 <=? ndigits then
    let n := Z.to_nat ndigits in
    if (scale x <=? n)%nat then x
    else mkDec (div_half_even (mant x) (pow10 (scale x - n))) n
  else
    let k := Z.to_nat (- ndigits) in
    mkDec (div_half_even (mant x) (pow10 (scale x + k)) * pow10 k) 0.

(** [round(n, ndigits)] on an int. *)
Definition round_int (n : Z) (ndigits : Z) : Z :=
  if 0 <=? ndigits then n
  else
    let k := Z.to_nat (- ndigits) in
    div_half_even n (pow10 k) * pow10 k.

(** Drop the trailing zeros of the fractional part. *)
Fixpoint strip_zeros (m : Z) (k : nat) : Z * nat :=
  match k with
  | O => (m, O)
  | S k' => if m mod 10 =? 0 then strip_zeros (m / 10) k' else (m, k)
  end.

Definition Z_str (n : Z) : string := NilZero.string_of_int (Z.to_int n).

Fixpoint zeros (k : nat) : string :=
  match k with
  | O => EmptyString
  | S k' => String "0"%char (zeros k')
  end.

Definition pad_left (width : nat) (s : string) : string :=
  zeros (width - String.length s) ++ s.

(** [str(x)] of a float, in positional notation at every magnitude
    (CPython switches to exponent notation below 1e-4 and from 1e16). *)
Definition dec_str (x : dec) : string :=
  let '(m, k) := strip_zeros (mant x) (scale x) in
  let a := Z.abs m in
  let sign := if m <? 0 then "-" else "" in
  match k with
  | O => sign ++ Z_str a ++ ".0"
  | _ => sign ++ Z_str (a / pow10 k) ++ "." ++ pad_left k (Z_str (a mod pow10 k))
  end.

(** ** Values *)
Inductive value : Type :=
| PyNone
| PyBool (b : bool)
| PyInt (n : Z)
| PyFloat (x : dec)
| PyStr (s : string).

(** [str(v)], which is also what ['{}'.format(v)] inserts. *)
Definition str (v : value) : string :=
  match v with
  | PyNone => "None"
  | PyBool true => "True"
  | PyBool false => "False"
  | PyInt n => Z_str n
  | PyFloat x => dec_str x
  | PyStr s => s
  end.

Definition is_none (v : value) : bool :=
  match v with PyNone => true | _ => false end.

(** [isinstance(v, float)]. *)
Definition is_float (v : value) : bool :=
  match v with PyFloat _ => true | _ => false end.

(** [isinstance(v, int)]: [bool] is a subclass of [int]. *)
Definition is_int (v : value) : bool :=
  match v with PyInt _ | PyBool _ => true | _ => false end.

(** The number a numeric value stands for. *)
Definition as_dec (v : value) : option dec :=
  match v with
  | PyBool b => Some (dec_of_Z (if b then 1 else 0))
  | PyInt n => Some (dec_of_Z n)
  | PyFloat x => Some x
  | _ => None
  end.

(** [k >= v] and [v >= k] for an integer literal [k]; a value that is
    not a number is not comparable (the callers test the type first). *)
Definition lit_ge (k : Z) (v : value) : bool :=
  match as_dec v with Some x => dec_leb x (dec_of_Z k) | None => false end.

Definition ge_lit (v : value) (k : Z) : bool :=
  match as_dec v with Some x => dec_leb (dec_of_Z k) x | None => false end.

(** [operator.index(v)]: the integer an int or a bool stands for. *)
Definition as_index (v : value) : option Z :=
  match v with
  | PyInt n => Some n
  | PyBool b => Some (if b then 1 else 0)
  | _ => None
  end.

(** [round(v, ndigits)]: a float gives a float and an int or bool an int;
    with [ndigits] [None] the result is the nearest int. A [TypeError]
    (no result) when [v] is not a number or [ndigits] is neither an
    integer nor [None]. *)
Definition round (v ndigits : value) : option value :=
  match ndigits, as_index ndigits with
  | PyNone, _ =>
      match v with
      | PyFloat x => Some (PyInt (div_half_even (mant x) (pow10 (scale x))))
      | _ => option_map PyInt (as_index v)
      end
  | _, Some n =>
      match v with
      | PyFloat x => Some (PyFloat (round_float x n))
      | _ => option_map (fun k => PyInt (round_int k n)) (as_index v)
      end
  | _, None => None
  end.

(** [a == b]: numbers compare by value across int, bool and float. *)
Definition eqb (a b : value) : bool :=
  match a, b with
  | PyNone, PyNone => true
  | PyStr s, PyStr t => String.eqb s t
  | _, _ =>
      match as_dec a, as_dec b with
      | Some x, Some y => dec_leb x y && dec_leb y x
      | _, _ => false
      end
  end.

(** [v in l] *)
Definition mem (v : value) (l : list value) : bool := existsb (eqb v) l.

(** Truth value: [None], [False], zero and the empty string are false. *)
Definition truthy (v : value) : bool :=
  match v with
  | PyNone => false
  | PyBool b => b
  | PyInt n => negb (n =? 0)
  | PyFloat x => negb (mant x =? 0)
  | PyStr s => negb (String.eqb s "")
  end.

(** Dictionaries keep insertion order, which the SQL text depends on:
    they are association lists whose keys are distinct. *)
Definition dict (V : Type) : Type := list (string * V).

Fixpoint dict_get {V} (d : dict V) (k : string) : option V :=
  match d with
  | [] => None
  | (k', v) :: rest => if String.eqb k' k then Some v else dict_get rest k
  end.

(** [d[k] = v]: an existing key keeps its position, a new one goes last. *)
Fixpoint dict_set {V} (d : dict V) (k : string) (v : V) : dict V :=
  match d with
  | [] => [(k, v)]
  | (k', v') :: rest =>
      if String.eqb k' k then (k', v) :: rest
      else (k', v') :: dict_set rest k v
  end.

Definition dict_keys {V} (d : dict V) : list string := map fst d.
Definition dict_values {V} (d : dict V) : list V := map snd d.
Definition dict_has {V} (d : dict V) (k : string) : bool :=
  str_in k (dict_keys d).

End Py.

(* ===================================================================== *)
(** * database.py: the SQL text *)
(* ===================================================================== *)

Module Database.
Import Py.

Definition ALL_CHAR : string := "*".
Definition SEPARATOR_CHAR : string := ",".

(** [CONDITION_TEMPLATE.format(c)] *)
Definition CONDITION_TEMPLATE (c : string) : string := " WHERE " ++ c.

(** [QUERY_TEMPLATES]: one function per template, its arguments in the
    order of the holes. *)
Definition QUERY_select (cols table cond : string) : string :=
  "SELECT " ++ cols ++ " FROM " ++ table ++ cond ++ ";".
Definition QUERY_select_distinct (cols table cond : string) : string :=
  "SELECT DISTINCT " ++ cols ++ " FROM " ++ table ++ cond ++ ";".
Definition QUERY_insert (table cols vals : string) : string :=
  "INSERT INTO " ++ table ++ " (" ++ cols ++ ") VALUES (" ++ vals ++ ");".
Definition QUERY_update (table vals cond : string) : string :=
  "UPDATE " ++ table ++ " SET " ++ vals ++ cond ++ ";".
Definition SORT_SENTINEL : string := "ZZZZZZZZZZZZZZ".
Definition QUERY_sortby_suffix (cond col1 col2 : string) : string :=
  cond ++ " ORDER BY CASE WHEN " ++ col1 ++ " IS null THEN '"
       ++ SORT_SENTINEL ++ "' else " ++ col2 ++ " END DESC".

(** [CONDITION] and [VALUES] *)
Definition CONDITION_list (column items : string) : string :=
  column ++ " in (" ++ items ++ ")".
Definition CONDITION_single (column value : string) : string :=
  column ++ " = " ++ dq ++ value ++ dq.
Definition CONDITION_join : string := " AND ".
Definition VALUES_join : string := ",".

(** A condition value is a list of strings ([','.join] takes nothing
    else) or a scalar. *)
Inductive where_value : Type :=
| WList (items : list string)
| WScalar (v : value).

(** A condition is a raw string or a mapping. *)
Inductive condition : Type :=
| CondRaw (s : string)
| CondDict (d : dict where_value).

(** One turn of the loop of [_parse_where_dict]. *)
Definition where_step (where_list : list string) (entry : string * where_value)
  : list string :=
  let '(column, value) := entry in
  match value with
  | WList items =>
      where_list ++ [CONDITION_list column (String.concat "," items)]
  | WScalar v =>
      where_list ++ [CONDITION_single column (str v)]
  end.

Definition _parse_where_dict (where_dict : dict where_value) : string :=
  let where_list := fold_left where_step where_dict [] in
  match where_list with
  | [] => ""
  | _ => String.concat CONDITION_join where_list
  end.

Definition _generate_condition (cond : option condition) : string :=
  match cond with
  | None => ""
  | Some (CondDict d) => CONDITION_TEMPLATE (_parse_where_dict d)
  | Some (CondRaw s) => CONDITION_TEMPLATE s
  end.

Definition _clean_string (dirty_string : value) : string :=
  let dirty_string :=
    if is_none dirty_string then "null" else str dirty_string in
  let clean_string := replace_char "034"%char sq dirty_string in
  dq ++ clean_string ++ dq.

(** The [values] argument of [_generate_columns]: a mapping, one column
    name, or a list of column names. *)
Inductive columns : Type :=
| ColsDict (d : dict value)
| ColsOne (s : string)
| ColsList (l : list string).

Definition _generate_columns (values : option columns) : string :=
  match values with
  | None => ALL_CHAR
  | Some (ColsDict d) =>
      String.concat VALUES_join
        (map (fun cv => dq ++ fst cv ++ dq ++ "=" ++ _clean_string (snd cv)) d)
  | Some (ColsOne s) => String.concat VALUES_join [s]
  | Some (ColsList l) => String.concat VALUES_join l
  end.

(** [select(..., return_sql=True)] *)
Definition select (table : string) (cols : option columns)
    (cond : option condition) (sortby : option string) (distinct : bool)
  : string :=
  let query_template := if distinct then QUERY_select_distinct else QUERY_select in
  let condition_string := _generate_condition cond in
  let condition_string :=
    match sortby with
    | Some c => QUERY_sortby_suffix condition_string c c
    | None => condition_string
    end in
  query_template (_generate_columns cols) table condition_string.

(** The text of one value in the [VALUES (...)] list of [insert]. *)
Definition insert_value (v : value) : string :=
  if is_none v then "null" else dq ++ str v ++ dq.

(** [insert(..., return_sql=True)] *)
Definition insert (table : string) (values : dict value) : string :=
  let cols := String.concat VALUES_join (dict_keys values) in
  let vals := String.concat VALUES_join (map insert_value (dict_values values)) in
  QUERY_insert table cols vals.

(** [update(..., return_sql=True)] *)
Definition update (table : string) (values_dict : dict value)
    (cond : option condition) : string :=
  QUERY_update table (_generate_columns (Some (ColsDict values_dict)))
               (_generate_condition cond).


End Database.

(* ===================================================================== *)
(** * Time *)
(* ===================================================================== *)

(** A [datetime] is a count of microseconds since 1970-01-01 00:00:00;
    [strftime] turns it into the calendar fields. *)
Module Datetime.
Import Py.

Definition t : Type := Z.

(** Year, month and day of a day count (proleptic Gregorian calendar). *)
Definition civil_from_days (days : Z) : Z * Z * Z :=
  let z := days + 719468 in
  let era := z / 146097 in
  let doe := z - era * 146097 in
  let yoe := (doe - doe / 1460 + doe / 36524 - doe / 146096) / 365 in
  let doy := doe - (365 * yoe + yoe / 4 - yoe / 100) in
  let mp := (5 * doy + 2) / 153 in
  let d := doy - (153 * mp + 2) / 5 + 1 in
  let m := if mp <? 10 then mp + 3 else mp - 9 in
  let y := yoe + era * 400 + (if m <=? 2 then 1 else 0) in
  (y, m, d).

Definition digits (width : nat) (n : Z) : string := pad_left width (Z_str n).

(** [strftime('%Y%m%d%H%M%S')] *)
Definition strftime_seconds (x : t) : string :=
  let secs := x / 1000000 in
  let sod := secs mod 86400 in
  let '(y, m, d) := civil_from_days (secs / 86400) in
  digits 4 y ++ digits 2 m ++ digits 2 d
    ++ digits 2 (sod / 3600) ++ digits 2 (sod mod 3600 / 60) ++ digits 2 (sod mod 60).

(** [strftime('%Y%m%d%H%M%S%f')] *)
Definition strftime_micros (x : t) : string :=
  strftime_seconds x ++ digits 6 (x mod 1000000).

(** [(a - b).total_seconds()] *)
Definition total_seconds (a b : t) : dec := mkDec (a - b) 6.

End Datetime.

(* ===================================================================== *)
(** * The stored tables *)
(* ===================================================================== *)

(** What the statements of [Database] do to the database file. SQLite is
    outside the repository: this is the meaning of the statements the code
    emits, for texts that hold no double quote, a text between double
    quotes being read as a string. Every column is TEXT; a cell is a
    string or NULL. *)
Module Engine.
Import Py.

Definition row : Type := dict (option string).

Record table : Type := mkTable { columns : list string; rows : list row }.

Definition db : Type := dict table.

Definition cell (r : row) (c : string) : option string :=
  match dict_get r c with
  | Some x => x
  | None => None
  end.

(** The row as [SELECT *] returns it: one field per column of the table. *)
Definition fields (cols : list string) (r : row) : list (option string) :=
  map (cell r) cols.

(** [c = "text"] for every entry of an equality mapping. *)
Definition matches (where_ : dict value) (r : row) : bool :=
  forallb (fun cv =>
             match cell r (fst cv) with
             | Some s => String.eqb s (str (snd cv))
             | None => false
             end) where_.

Definition selects (where_ : option (dict value)) (r : row) : bool :=
  match where_ with
  | None => true
  | Some d => matches d r
  end.

(** The cell written by [INSERT] for a value: [null] or the quoted text. *)
Definition inserted_cell (v : value) : option string :=
  if is_none v then None else Some (str v).

(** The cell written by [UPDATE] for a value: always a quoted text. *)
Definition updated_cell (v : value) : option string :=
  Some (replace_char "034"%char sq (if is_none v then "null" else str v)).

Definition set_cells (assign : row) (r : row) : row :=
  map (fun kv =>
         match dict_get assign (fst kv) with
         | Some x => (fst kv, x)
         | None => kv
         end) r.

(** [CASE WHEN c IS null THEN 'ZZZZZZZZZZZZZZ' else c END] *)
Definition sort_key (c : string) (r : row) : string :=
  match cell r c with
  | None => Database.SORT_SENTINEL
  | Some s => s
  end.

(** [ORDER BY key DESC], texts compared byte by byte; rows with the same
    key keep their order of insertion. *)
Fixpoint place_desc (key : row -> string) (x : row) (l : list row) : list row :=
  match l with
  | [] => [x]
  | y :: l' =>
      if String.leb (key y) (key x) then x :: y :: l'
      else y :: place_desc key x l'
  end.

Definition order_desc (key : row -> string) (l : list row) : list row :=
  fold_right (place_desc key) [] l.

Definition select (t : table) (where_ : option (dict value))
    (sortby : option string) : list row :=
  let hits := filter (selects where_) (rows t) in
  match sortby with
  | None => hits
  | Some c => order_desc (sort_key c) hits
  end.

Definition insert (t : table) (values : dict value) : table :=
  mkTable (columns t)
          (rows t ++ [map (fun kv => (fst kv, inserted_cell (snd kv))) values]).

Definition update (t : table) (values : dict value)
    (where_ : option (dict value)) : table :=
  let assign := map (fun kv => (fst kv, updated_cell (snd kv))) values in
  mkTable (columns t)
          (map (fun r => if selects where_ r then set_cells assign r else r)
               (rows t)).

End Engine.

(* ===================================================================== *)
(** * Effects *)
(* ===================================================================== *)

(** A method runs on a state and returns a value or raises; what it
    changed before raising stays changed. *)
Module Eff.

Inductive res (A : Type) : Type :=
| Ok (a : A)
| Raised (msg : string).
Arguments Ok {A} a.
Arguments Raised {A} msg.

Definition M (S A : Type) : Type := S -> res A * S.

Definition ret {S A} (a : A) : M S A := fun s => (Ok a, s).

Definition bind {S A B} (m : M S A) (k : A -> M S B) : M S B :=
  fun s =>
    match m s with
    | (Ok a, s') => k a s'
    | (Raised e, s') => (Raised e, s')
    end.

(** [raise Exception(msg)] *)
Definition raise {S A} (msg : string) : M S A := fun s => (Raised msg, s).

(** [try: m  except Exception as error: handler(str(error))] *)
Definition catch {S A} (m : M S A) (handler : string -> M S A) : M S A :=
  fun s =>
    match m s with
    | (Ok a, s') => (Ok a, s')
    | (Raised e, s') => handler e s'
    end.

Definition get {S} : M S S := fun s => (Ok s, s).
Definition modify {S} (f : S -> S) : M S unit := fun s => (Ok tt, f s).
Definition of_res {S A} (r : res A) : M S A := fun s => (r, s).

(** A method of an object that also touches the world: the state is the
    pair of [self] and the world. *)
Definition self {O W} : M (O * W) O := fun s => (Ok (fst s), s).
Definition assign {O W} (f : O -> O) : M (O * W) unit :=
  fun s => (Ok tt, (f (fst s), snd s)).
Definition world_op {O W A} (m : M W A) : M (O * W) A :=
  fun s => let '(r, w) := m (snd s) in (r, (fst s, w)).

(** A method of a part [P] of the object [O], run on the part in place. *)
Definition focus {O P W A} (part : O -> P) (store : P -> O -> O)
    (m : M (P * W) A) : M (O * W) A :=
  fun s =>
    let '(r, (p, w)) := m (part (fst s), snd s) in
    (r, (store p (fst s), w)).

(** A constructor: [body] runs on the fresh object, which is returned. *)
Definition construct {O W} (fresh : O) (body : M (O * W) unit) : M W O :=
  fun w =>
    let '(r, (o, w')) := body (fresh, w) in
    (match r with Ok _ => Ok o | Raised e => Raised e end, w').

Definition raised {A} (r : res A) : bool :=
  match r with Raised _ => true | Ok _ => false end.

Module Notations.
Declare Scope eff_scope.
Delimit Scope eff_scope with eff.
Notation "x <- m ;; k" := (bind m (fun x => k))
  (at level 61, m at next level, right associativity) : eff_scope.
Notation "m ;; k" := (bind m (fun _ => k))
  (at level 61, right associativity) : eff_scope.
End Notations.

End Eff.

(* ===================================================================== *)
(** * The world outside the objects *)
(* ===================================================================== *)

Module World.
Import Py Eff.

Inductive level : Type := INFO | WARNING.

(** [Job.as_dict()] and what [Report(job)] collects. *)
Record job_dict : Type := mkJobDict {
  jd_id : value; jd_name : value; jd_run_datetime : Datetime.t; jd_status : value
}.

Record report : Type := mkReport {
  STORED_VALUES : list (value * value);   (* key, value *)
  SIGNAL : list (value * value);          (* action, confidence *)
  JOB : list job_dict
}.

(** A call of the notifier. The SMTP transport is outside the model: a
    call is recorded with what it was given to send. *)
Inductive notice : Type :=
| job_failure (to : value) (job : job_dict) (variables : dict value) (error : value)
| signal_change (to : value) (signal_name : value) (r : report).

Record t : Type := mk {
  clock : nat -> Datetime.t;     (* the successive readings of the system clock *)
  reads : nat;                   (* how many readings were taken *)
  tables : Engine.db;            (* the database file *)
  executed : list string;        (* the SQL given to [cursor.execute], oldest first *)
  log : list (level * string);   (* the log records, oldest first *)
  outbox : list notice           (* the notifier calls, oldest first *)
}.

(** [datetime.utcnow()] and [datetime.datetime.now()] *)
Definition now : M t Datetime.t :=
  fun w => (Ok (clock w (reads w)),
            mk (clock w) (S (reads w)) (tables w) (executed w) (log w) (outbox w)).

Definition with_tables (d : Engine.db) (w : t) : t :=
  mk (clock w) (reads w) d (executed w) (log w) (outbox w).

Definition record_sql (sql : string) : M t unit :=
  modify (fun w =>
    mk (clock w) (reads w) (tables w) (executed w ++ [sql]) (log w) (outbox w)).

Definition log_record (l : level) (msg : string) : M t unit :=
  modify (fun w =>
    mk (clock w) (reads w) (tables w) (executed w) (log w ++ [(l, msg)]) (outbox w)).

Definition send (n : notice) : M t unit :=
  modify (fun w =>
    mk (clock w) (reads w) (tables w) (executed w) (log w) (outbox w ++ [n])).

End World.

(* ===================================================================== *)
(** * database.py: execution and the record accessor *)
(* ===================================================================== *)

Module DAO.
Import Py Eff Eff.Notations.
Local Open Scope eff_scope.

(** A DAO class: its [TABLE] and [SCHEMA] (data.py). *)
Record t : Type := mk { TABLE : string; SCHEMA : list string }.

Definition STANDARD_ID : string := "id".

(** [hashlib.md5(s.encode()).hexdigest()], kept symbolic: the model names
    the digest by the text that is hashed. *)
Definition md5_hexdigest (s : string) : string := "md5(" ++ s ++ ")".

(** [Database.unique_id()] *)
Definition unique_id : M World.t string :=
  x <- World.now ;;
  ret (md5_hexdigest (Datetime.strftime_micros x)).

(** [execute_sql(sql_query=sql)]: the statement goes to the engine, which
    raises when the table does not exist. *)
Definition execute_sql {A} (sql : string) (table : string)
    (run : Engine.table -> A * Engine.table) : M World.t A :=
  World.record_sql sql ;;
  w <- get ;;
  match dict_get (World.tables w) table with
  | None => raise ("no such table: " ++ table)
  | Some t =>
      let '(a, t') := run t in
      modify (World.with_tables (dict_set (World.tables w) table t')) ;;
      ret a
  end.

(** The conditions job.py passes are mappings from a column to a scalar. *)
Definition as_condition (where_ : option (dict value)) : option Database.condition :=
  option_map
    (fun d => Database.CondDict (map (fun cv => (fst cv, Database.WScalar (snd cv))) d))
    where_.

(** The condition chosen by [read] and [update] *)
Definition choose_condition (entry_id : value) (where_condition : option (dict value))
  : option (dict value) :=
  match where_condition with
  | Some c => Some c
  | None => if is_none entry_id then None else Some [(STANDARD_ID, entry_id)]
  end.

Fixpoint index_of (x : string) (l : list string) : option nat :=
  match l with
  | [] => None
  | y :: l' => if String.eqb y x then Some O else option_map S (index_of x l')
  end.

Definition get_column_index (self : t) (column_name : string) : option nat :=
  if str_in column_name (SCHEMA self) then index_of column_name (SCHEMA self)
  else None.

(** [row[index]] on a row read back: a text field becomes a string and
    NULL becomes [None]. *)
Definition field (r : list (option string)) (index : option nat) : M World.t value :=
  match index with
  | None => raise "tuple indices must be integers or slices, not NoneType"
  | Some i =>
      match nth_error r i with
      | None => raise "tuple index out of range"
      | Some None => ret PyNone
      | Some (Some s) => ret (PyStr s)
      end
  end.

(** [read(entry_id, where_condition, sortby)], with [distinct] left at
    its default *)
Definition read (self : t) (entry_id : value) (where_condition : option (dict value))
    (sortby : option string) : M World.t (list (list (option string))) :=
  let cond := choose_condition entry_id where_condition in
  execute_sql
    (Database.select (TABLE self) None (as_condition cond) sortby false)
    (TABLE self)
    (fun t => (map (Engine.fields (Engine.columns t)) (Engine.select t cond sortby), t)).

Definition update (self : t) (entry_id : value) (values_dict : dict value)
    (where_condition : option (dict value)) : M World.t unit :=
  let cond := choose_condition entry_id where_condition in
  execute_sql
    (Database.update (TABLE self) values_dict (as_condition cond))
    (TABLE self)
    (fun t => (tt, Engine.update t values_dict cond)).

(** The loop that fills the missing columns with [None]. *)
Definition fill_missing (schema : list string) (data_dict : dict value) : dict value :=
  let missing_columns := filter (fun c => negb (dict_has data_dict c)) schema in
  fold_left (fun d c => dict_set d c PyNone) missing_columns data_dict.

Definition new (self : t) (data_dict : dict value) : M World.t value :=
  uid <- unique_id ;;
  let data_dict := dict_set data_dict STANDARD_ID (PyStr uid) in
  let data_dict := fill_missing (SCHEMA self) data_dict in
  execute_sql (Database.insert (TABLE self) data_dict) (TABLE self)
              (fun t => (tt, Engine.insert t data_dict)) ;;
  ret (match dict_get data_dict STANDARD_ID with Some v => v | None => PyNone end).

(** data.py *)
Definition JobDAO : t :=
  mk "Jobs" [STANDARD_ID; "datetime"; "name"; "status"; "seconds_elapsed"].
Definition SignalDAO : t :=
  mk "Signals" [STANDARD_ID; "job_id"; "datetime"; "name"; "action"; "confidence"].
Definition StoredValuesDAO : t :=
  mk "StoredValues" [STANDARD_ID; "job_id"; "datetime"; "key"; "value"].

End DAO.

(* ===================================================================== *)
(** * job.py: Signal *)
(* ===================================================================== *)

Module Signal.
Import Py Eff Eff.Notations.
Local Open Scope eff_scope.

Definition HOLD : string := "HOLD".
Definition SELL : string := "SELL".
Definition BUY : string := "BUY".

Record t : Type := mk {
  _job_id : value;
  _previous_action : value;
  name : value;
  action : value;
  confidence : value
}.

Definition set__previous_action (v : value) (s : t) : t :=
  mk (_job_id s) v (name s) (action s) (confidence s).
Definition set_action (v : value) (s : t) : t :=
  mk (_job_id s) (_previous_action s) (name s) v (confidence s).
Definition set_confidence (v : value) (s : t) : t :=
  mk (_job_id s) (_previous_action s) (name s) (action s) v.

Definition _load : M (t * World.t) unit :=
  s <- self ;;
  signal_rows <- world_op (DAO.read DAO.SignalDAO PyNone (Some [("name", name s)])
                                    (Some "datetime")) ;;
  match signal_rows with
  | [] => ret tt
  | latest_signal :: _ =>
      a <- world_op (DAO.field latest_signal
                               (DAO.get_column_index DAO.SignalDAO "action")) ;;
      assign (set_action a) ;;
      c <- world_op (DAO.field latest_signal
                               (DAO.get_column_index DAO.SignalDAO "confidence")) ;;
      assign (set_confidence c)
  end.

Definition __init__ (job_id name : value) : M World.t t :=
  construct (mk job_id PyNone name PyNone PyNone) _load.

Definition action_error : string :=
  "Signal status must be either " ++ dq ++ "hold" ++ dq ++ ", " ++ dq ++ "sell"
    ++ dq ++ " or " ++ dq ++ "buy" ++ dq ++ "!".
Definition confidence_error : string := "Confidence must be a float (0-1)".

Definition set (action confidence : value) : M (t * World.t) unit :=
  if negb (mem action [PyStr HOLD; PyStr SELL; PyStr BUY]) then
    raise action_error
  else if negb (is_float confidence || is_int confidence)
          || (lit_ge 0 confidence && ge_lit confidence 1) then
    raise confidence_error
  else
    assign (set__previous_action action) ;;
    assign (set_action action) ;;
    match round confidence (PyInt 2) with
    | None => raise "type doesn't define __round__ method"
    | Some c =>
        assign (set_confidence c) ;;
        x <- world_op World.now ;;
        s <- self ;;
        world_op (DAO.new DAO.SignalDAO
                    [("job_id", _job_id s);
                     ("name", name s);
                     ("datetime", PyStr (Datetime.strftime_seconds x));
                     ("action", Signal.action s);
                     ("confidence", Signal.confidence s)]) ;;
        ret tt
    end.

Definition has_changed (s : t) : bool :=
  negb (eqb (_previous_action s) (action s)).

Definition as_dict (s : t) : value * value := (action s, confidence s).

(** ['{}: {}, {}'.format(name, action, confidence)] *)
Definition __str__ (s : t) : string :=
  str (name s) ++ ": " ++ str (action s) ++ ", " ++ str (confidence s).

End Signal.

(* ===================================================================== *)
(** * job.py: StoredValue *)
(* ===================================================================== *)

Module StoredValue.
Import Eff Eff.Notations.
Local Open Scope eff_scope.

(** [id], [action] and [confidence] exist only once [_load] found a row. *)
Record t : Type := mk {
  _round_dp : Py.value;
  job_id : Py.value;
  key : Py.value;
  value : Py.value;
  id : option Py.value;
  action : option Py.value;
  confidence : option Py.value
}.

Definition set_value (v : Py.value) (s : t) : t :=
  mk (_round_dp s) (job_id s) (key s) v (id s) (action s) (confidence s).
Definition set_id (v : Py.value) (s : t) : t :=
  mk (_round_dp s) (job_id s) (key s) (value s) (Some v) (action s) (confidence s).
Definition set_action (v : Py.value) (s : t) : t :=
  mk (_round_dp s) (job_id s) (key s) (value s) (id s) (Some v) (confidence s).
Definition set_confidence (v : Py.value) (s : t) : t :=
  mk (_round_dp s) (job_id s) (key s) (value s) (id s) (action s) (Some v).

Definition _load : M (t * World.t) unit :=
  s <- self ;;
  value_rows <- world_op (DAO.read DAO.StoredValuesDAO Py.PyNone
                                   (Some [("key", key s)]) (Some "datetime")) ;;
  match value_rows with
  | [] => ret tt
  | latest_value :: _ =>
      i <- world_op (DAO.field latest_value (Some O)) ;;
      assign (set_id i) ;;
      a <- world_op (DAO.field latest_value
                               (DAO.get_column_index DAO.StoredValuesDAO "key")) ;;
      assign (set_action a) ;;
      c <- world_op (DAO.field latest_value
                               (DAO.get_column_index DAO.StoredValuesDAO "value")) ;;
      assign (set_confidence c)
  end.

Definition __init__ (job_id key round_dp : Py.value) : M World.t t :=
  construct (mk round_dp job_id key Py.PyNone None None None) _load.

Definition _round (s : t) (number : Py.value) : res Py.value :=
  if Py.truthy (_round_dp s) then
    match Py.round number (_round_dp s) with
    | Some r => Ok r
    | None => Raised "object cannot be interpreted as an integer"
    end
  else Ok number.

Definition set (v : Py.value) : M (t * World.t) unit :=
  s <- self ;;
  r <- (if Py.is_float v then of_res (_round s v) else ret v) ;;
  assign (set_value r) ;;
  x <- world_op World.now ;;
  world_op (DAO.new DAO.StoredValuesDAO
              [("job_id", job_id s);
               ("datetime", Py.PyStr (Datetime.strftime_seconds x));
               ("key", key s);
               ("value", v)]) ;;
  ret tt.

Definition as_dict (s : t) : Py.value * Py.value := (key s, value s).

(** ['{}: {}'.format(key, value)] *)
Definition __str__ (s : t) : string := Py.str (key s) ++ ": " ++ Py.str (value s).

End StoredValue.

(* ===================================================================== *)
(** * job.py: JobStatus and Job *)
(* ===================================================================== *)

Module JobStatus.
Import Py Eff.

Definition SUCCESS_CODE : Z := 0.
Definition FAIL_CODE : Z := 1.
Definition INITIATED : string := "INITIATED".
Definition REQUESTING : string := "REQUESTING_DATA".
Definition CALCULATING : string := "CALCULATING".
Definition FAILED : string := "FAILED".
Definition SUCCESS : string := "SUCCESS".
Definition VALID : list string := [INITIATED; REQUESTING; CALCULATING; FAILED; SUCCESS].

(** The message is raised as written: [format] is never applied to it. *)
Definition is_valid (status_string : string) : res bool :=
  if negb (str_in (upper status_string) VALID) then
    Raised "{} is an invalid status!"
  else Ok true.

End JobStatus.

Module Job.
Import Py Eff Eff.Notations World.
Local Open Scope eff_scope.

Record t : Type := mk {
  _stored_values : dict StoredValue.t;
  status : value;
  error : value;
  name : value;
  email : value;
  run_datetime : Datetime.t;
  variables : dict value;
  id : value;
  signal : Signal.t
}.

Definition set__stored_values (d : dict StoredValue.t) (j : t) : t :=
  mk d (status j) (error j) (name j) (email j) (run_datetime j) (variables j)
     (id j) (signal j).
Definition set_status_attr (v : value) (j : t) : t :=
  mk (_stored_values j) v (error j) (name j) (email j) (run_datetime j)
     (variables j) (id j) (signal j).
Definition set_error (v : value) (j : t) : t :=
  mk (_stored_values j) (status j) v (name j) (email j) (run_datetime j)
     (variables j) (id j) (signal j).
Definition set_signal_attr (s : Signal.t) (j : t) : t :=
  mk (_stored_values j) (status j) (error j) (name j) (email j) (run_datetime j)
     (variables j) (id j) s.

(** [d.get(k)] *)
Definition get_or_none (d : dict value) (k : string) : value :=
  match dict_get d k with
  | Some v => v
  | None => PyNone
  end.

Definition status_message (status : string) : string :=
  "Job status: " ++ dq ++ status ++ dq.

Definition set_status (status : string) : M (t * World.t) unit :=
  assign (set_status_attr (PyStr status)) ;;
  valid <- of_res (JobStatus.is_valid status) ;;
  if valid : bool then
    x <- world_op World.now ;;
    j <- self ;;
    let seconds_elapsed := PyFloat (Datetime.total_seconds x (run_datetime j)) in
    (if String.eqb status JobStatus.FAILED
     then world_op (log_record WARNING (status_message status))
     else world_op (log_record INFO (status_message status))) ;;
    world_op (DAO.update DAO.JobDAO (id j)
                [("status", PyStr status); ("seconds_elapsed", seconds_elapsed)]
                None)
  else ret tt.

(** The stored value under [key], updated in place. *)
Definition stored_value_at (key : string) (j : t) : StoredValue.t :=
  match dict_get (_stored_values j) key with
  | Some sv => sv
  | None => StoredValue.mk PyNone PyNone PyNone PyNone None None None
  end.

Definition store_value (key : string) (v : value) : M (t * World.t) unit :=
  j <- self ;;
  (if negb (dict_has (_stored_values j) key) then
     sv <- world_op (StoredValue.__init__ (id j) (PyStr key)
                                          (get_or_none (variables j) "round_dp")) ;;
     assign (fun j => set__stored_values (dict_set (_stored_values j) key sv) j)
   else ret tt) ;;
  focus (stored_value_at key)
        (fun sv j => set__stored_values (dict_set (_stored_values j) key sv) j)
        (StoredValue.set v) ;;
  j <- self ;;
  world_op (log_record INFO
              ("Stored value: " ++ StoredValue.__str__ (stored_value_at key j))).

Definition read_value (key : string) : M (t * World.t) value :=
  j <- self ;;
  match dict_get (_stored_values j) key with
  | None => raise ("No stored value with the key " ++ dq ++ key ++ dq ++ " exists!")
  | Some stored_value => ret (StoredValue.value stored_value)
  end.

Definition get_all_stored_values (j : t) : list StoredValue.t :=
  dict_values (_stored_values j).

(** [confidence] defaults to the int 0. *)
Definition set_signal (action confidence : value) : M (t * World.t) unit :=
  focus signal set_signal_attr (Signal.set action confidence) ;;
  j <- self ;;
  world_op (log_record INFO ("Signal: " ++ Signal.__str__ (signal j))).

Definition set_signal_default (action : value) : M (t * World.t) unit :=
  set_signal action (PyInt 0).

Definition do_work (calculation_function : M (t * World.t) unit)
  : M (t * World.t) unit :=
  assign (set_error PyNone) ;;
  catch calculation_function (fun error => assign (set_error (PyStr error))).

Definition as_dict (j : t) : job_dict :=
  mkJobDict (id j) (name j) (run_datetime j) (status j).

(** [Report(job)] *)
Definition Report (j : t) : report :=
  mkReport (map StoredValue.as_dict (get_all_stored_values j))
           [Signal.as_dict (signal j)]
           [as_dict j].

(** [self._emailer] is an [Emailer] object, which is always true: the
    test [if self._emailer] is passed on every run. *)
Definition finish_and_return_code (force_email : bool) : M (t * World.t) Z :=
  j <- self ;;
  if truthy (error j) then
    set_status JobStatus.FAILED ;;
    j <- self ;;
    world_op (log_record WARNING ("Error: " ++ str (error j))) ;;
    world_op (send (job_failure (email j) (as_dict j) (variables j) (error j))) ;;
    world_op (log_record INFO ("Sent error to " ++ str (email j))) ;;
    ret JobStatus.FAIL_CODE
  else
    set_status JobStatus.SUCCESS ;;
    j <- self ;;
    (if Signal.has_changed (signal j) || force_email then
       let report := Report j in
       world_op (send (signal_change (email j) (Signal.name (signal j)) report)) ;;
       world_op (log_record INFO ("Sent signal and report to " ++ str (email j)))
     else
       world_op (log_record INFO
                   "Signal action hasn't changed, so won't send email")) ;;
    ret JobStatus.SUCCESS_CODE.

End Job.

(* ===================================================================== *)
(** * database.py and deploy.py: creating and deleting *)
(* ===================================================================== *)

Module Tables.
Import Py Eff Eff.Notations.
Local Open Scope eff_scope.

(** [str.lower] on byte strings. *)
Definition lower_char (c : ascii) : ascii :=
  let n := nat_of_ascii c in
  if ((65 <=? n) && (n <=? 90))%nat then ascii_of_nat (n + 32) else c.

Fixpoint lower (s : string) : string :=
  match s with
  | EmptyString => EmptyString
  | String c rest => String (lower_char c) (lower rest)
  end.

(** [QUERY_TEMPLATES]: ['create'] and ['cascade_suffix'] *)
Definition QUERY_create (name cols cascade : string) : string :=
  "CREATE TABLE " ++ name ++ " (" ++ cols ++ cascade ++ ");".
Definition QUERY_cascade_suffix (fk_name foreign_key foreign_table primary_key : string)
  : string :=
  ", CONSTRAINT " ++ fk_name ++ " FOREIGN KEY (" ++ foreign_key ++ ") REFERENCES "
    ++ foreign_table ++ "(" ++ primary_key ++ ") ON DELETE CASCADE".

Definition is_primary_key (primary_key key : string) : string :=
  if String.eqb key primary_key then "PRIMARY KEY" else "".

(** ['{} {} {}'.format(k, 'TEXT', is_primary_key(k))] *)
Definition column_text (primary_key k : string) : string :=
  k ++ " " ++ "TEXT" ++ " " ++ is_primary_key primary_key k.

(** The statement [Database.create_table] builds. *)
Definition create_table_sql (name : string) (schema : list string)
    (primary_key : string) (foreign_table foreign_key : option string) : string :=
  let cols := String.concat "," (map (column_text primary_key) schema) in
  let cascade :=
    match foreign_key, foreign_table with
    | Some fk, Some ft =>
        if str_in fk schema then
          QUERY_cascade_suffix (lower ("fk_" ++ name ++ "_" ++ fk)) fk ft primary_key
        else ""
    | _, _ => ""
    end in
  QUERY_create name cols cascade.

(** What [CREATE TABLE] does: the engine refuses a name that is taken
    (an [OperationalError]) and otherwise adds an empty table with the
    columns of the schema. *)
Definition execute_create (sql name : string) (schema : list string) : M World.t unit :=
  World.record_sql sql ;;
  w <- get ;;
  match dict_get (World.tables w) name with
  | Some _ => raise ("table " ++ name ++ " already exists")
  | None =>
      modify (World.with_tables
                (dict_set (World.tables w) name (Engine.mkTable schema [])))
  end.

(** [Database.create_table], with [primary_key] at its default ['id'] *)
Definition Database_create_table (name : string) (schema : list string)
    (foreign_table foreign_key : option string) : M World.t unit :=
  execute_create (create_table_sql name schema "id" foreign_table foreign_key)
                 name schema.

(** [x if x else default] on an optional string and an optional list *)
Definition table_or (table : option string) (default : string) : string :=
  match table with
  | Some (String c rest) => String c rest
  | _ => default
  end.

Definition schema_or (schema : option (list string)) (default : list string)
  : list string :=
  match schema with
  | Some (c :: rest) => c :: rest
  | _ => default
  end.

(** [DAO.create_table]: the table and the schema of a DAO class are
    never [None], so the statement is always issued. *)
Definition DAO_create_table (self : DAO.t) (table : option string)
    (schema : option (list string)) (foreign_key parent_table : option string)
  : M World.t unit :=
  let table := table_or table (DAO.TABLE self) in
  let schema := schema_or schema (DAO.SCHEMA self) in
  Database_create_table table schema parent_table foreign_key.



(** ** DatabaseInitiator

    The machine it runs on: whether the database file is there, what was
    printed, and the world. A file that is not there holds no table. *)
Record host : Type := mkHost {
  is_file : bool;
  printed : list string;
  world : World.t
}.

Definition print (line : string) : M host unit :=
  modify (fun h => mkHost (is_file h) (printed h ++ [line]) (world h)).

Definition in_world {A} (m : M World.t A) : M host A :=
  fun h => let '(r, w) := m (world h) in (r, mkHost (is_file h) (printed h) w).

(** [with open(path, 'w+'): pass]: the file is there, and empty. *)
Definition touch : M host unit :=
  modify (fun h => mkHost true (printed h) (World.with_tables [] (world h))).

Definition created_message (path : string) : string :=
  "Created database file " ++ dq ++ path ++ dq ++ ".".

Definition warning_message (table error : string) : string :=
  "WARNING: Could not create table " ++ dq ++ table ++ dq ++ ". SQL Error: "
    ++ dq ++ error ++ dq.

(** [dao.TABLE == parent_table] *)
Definition is_parent (dao : DAO.t) (parent_table : option string) : bool :=
  match parent_table with
  | Some p => String.eqb (DAO.TABLE dao) p
  | None => false
  end.

(** One turn of the loop over the DAO classes. The engine is the only
    thing that raises in it, so every error is an [OperationalError]
    and is caught. *)
Definition create_one (foreign_key parent_table : option string) (dao : DAO.t)
  : M host unit :=
  catch
    (if is_parent dao parent_table then
       in_world (DAO_create_table dao None None None None)
     else
       in_world (DAO_create_table dao None None foreign_key parent_table))
    (fun e => print (warning_message (DAO.TABLE dao) e)).

Fixpoint for_each {S A} (l : list A) (body : A -> M S unit) : M S unit :=
  match l with
  | [] => ret tt
  | x :: rest => body x ;; for_each rest body
  end.

(** [DatabaseInitiator(path, daos).create_tables(foreign_key, parent_table)] *)
Definition create_tables (database_file_path : string) (daos : list DAO.t)
    (foreign_key parent_table : option string) : M host unit :=
  h <- get ;;
  (if negb (is_file h) then
     touch ;; print (created_message database_file_path)
   else ret tt) ;;
  for_each daos (create_one foreign_key parent_table).

(** deploy.py *)
Definition WORKING_DIR : string := "/Users/joshnicholls/Desktop/auto_crypto/".
Definition DAO_LIST : list DAO.t := [DAO.JobDAO; DAO.SignalDAO; DAO.StoredValuesDAO].

Definition main : M host unit :=
  create_tables (WORKING_DIR ++ "data.db") DAO_LIST None None.

End Tables.

(* ===================================================================== *)
(** * configuation.py *)
(* ===================================================================== *)

Module Configuration.
Import Py Eff.

Definition missing_error (missing : list string) : string :=
  "YAML file is missing expected items!: " ++ String.concat ", " missing.

(** [read_yaml], from the value the YAML loader returned: a mapping, or
    [None] for an empty file. *)
Definition read_yaml {V} (config_dict : option (dict V))
    (expected : option (list string)) : res (option (dict V)) :=
  match expected with
  | None => Ok config_dict
  | Some expected =>
      match config_dict, expected with
      | None, _ :: _ => Raised "argument of type 'NoneType' is not iterable"
      | None, [] => Ok None
      | Some d, _ =>
          let missing := filter (fun i => negb (dict_has d i)) expected in
          match missing with
          | [] => Ok config_dict
          | _ => Raised (missing_error missing)
          end
      end
  end.

Definition read_global_configs {V} (config_dict : option (dict V))
  : res (option (dict V)) :=
  read_yaml config_dict (Some ["db_path"; "log_directory"; "data_sources"]).

Definition read_script_configs {V} (config_dict : option (dict V))
  : res (option (dict V)) :=
  read_yaml config_dict (Some ["name"; "variables"]).

End Configuration.

(* ===================================================================== *)
(** * job.py: Report *)
(* ===================================================================== *)

Module Report.
Import Py World.

(** What a cell of the report holds: a value, or the run [datetime]. *)
Inductive item : Type :=
| Val (v : value)
| Date (x : Datetime.t).

(** [str] of a [datetime]: the date, a space, the time, and the
    microseconds when there are some. *)
Definition datetime_str (x : Datetime.t) : string :=
  let secs := x / 1000000 in
  let sod := secs mod 86400 in
  let '(y, m, d) := Datetime.civil_from_days (secs / 86400) in
  let micros := x mod 1000000 in
  Datetime.digits 4 y ++ "-" ++ Datetime.digits 2 m ++ "-" ++ Datetime.digits 2 d
    ++ " " ++ Datetime.digits 2 (sod / 3600) ++ ":"
    ++ Datetime.digits 2 (sod mod 3600 / 60) ++ ":" ++ Datetime.digits 2 (sod mod 60)
    ++ (if micros =? 0 then "" else "." ++ Datetime.digits 6 micros).

Definition item_str (i : item) : string :=
  match i with
  | Val v => str v
  | Date x => datetime_str x
  end.

(** [isinstance(i, float) or isinstance(i, int)] *)
Definition is_number (i : item) : bool :=
  match i with
  | Val v => is_float v || is_int v
  | Date _ => false
  end.

(** [row_dict.get(column)] *)
Definition get (row_dict : dict item) (column : string) : item :=
  match dict_get row_dict column with
  | Some i => i
  | None => Val PyNone
  end.

(** The dictionaries [Report(job)] holds, from the three [as_dict]. *)
Definition stored_value_dict (kv : value * value) : dict item :=
  [("key", Val (fst kv)); ("value", Val (snd kv))].
Definition signal_dict (ac : value * value) : dict item :=
  [("action", Val (fst ac)); ("confidence", Val (snd ac))].
Definition job_as_dict (jd : job_dict) : dict item :=
  [("id", Val (jd_id jd)); ("name", Val (jd_name jd));
   ("run_datetime", Date (jd_run_datetime jd)); ("status", Val (jd_status jd))].

(** One turn of the loop of [_dict_to_html_row]. *)
Definition cell_step (row_dict : dict item) (html_parts : list string) (column : string)
  : list string :=
  let style_str :=
    if is_number (get row_dict column) then "font-family:'Courier New'" else "" in
  (html_parts ++ [("<td style=" ++ dq ++ style_str ++ dq ++ ">"
                    ++ item_str (get row_dict column) ++ "</td>")%string])%list.

Definition _dict_to_html_row (row_dict : dict item) (columns : list string) : string :=
  let html_parts := fold_left (cell_step row_dict) columns ["<tr>"] in
  String.concat "" (html_parts ++ ["</tr>"]).

Definition table_open : string :=
  "<table style=" ++ dq ++ "border:1px solid black;" ++ dq ++ ">".

Definition _list_to_html_table (rows : list (dict item)) (columns : list string)
  : string :=
  let html_parts :=
    fold_left (fun parts column =>
                 (parts ++ [("<th>" ++ column ++ "</th>")%string])%list)
              columns [table_open] in
  let html_parts := (html_parts ++ ["</tr>"])%list in
  let html_parts :=
    fold_left (fun parts row => (parts ++ [_dict_to_html_row row columns])%list)
              rows html_parts in
  String.concat "" (html_parts ++ ["</table>"]).

(** [_html_title(text)], with [tag] at its default ['h5'] *)
Definition _html_title (text : string) : string :=
  "<" ++ "h5" ++ ">" ++ text ++ "</" ++ "h5" ++ ">".

(** [_report_html], given the list the report holds under the type *)
Definition _report_html (signal_dict : list (dict item)) (title : string)
    (columns : list string) : string :=
  match signal_dict with
  | [] => ""
  | _ => String.concat "" [_html_title title; _list_to_html_table signal_dict columns]
  end.

Definition html (r : report) : string :=
  String.concat ""
    [_report_html (map signal_dict (SIGNAL r)) "New Signal" ["action"; "confidence"];
     _report_html (map stored_value_dict (STORED_VALUES r)) "Stored Values"
                  ["key"; "value"];
     _report_html (map job_as_dict (JOB r)) "Job"
                  ["id"; "name"; "run_datetime"; "status"]].

End Report.

(* ===================================================================== *)
(** * A small database and a job on it *)
(* ===================================================================== *)

Module Demo.
Import Py.

(** 2021-01-01 00:00:00, and a clock that gains a quarter of a second
    at every reading. *)
Definition start : Datetime.t := 1609459200000000.
Definition ticking (n : nat) : Datetime.t := start + Z.of_nat n * 250000.

Definition job_row : Engine.row :=
  [("id", Some "j1"); ("datetime", Some "20210101000000"); ("name", Some "doge");
   ("status", Some "INITIATED"); ("seconds_elapsed", Some "0.0")].

(** An earlier run left a SELL signal. *)
Definition sell_row : Engine.row :=
  [("id", Some "s0"); ("job_id", Some "j0"); ("datetime", Some "20201231000000");
   ("name", Some "doge"); ("action", Some "SELL"); ("confidence", Some "0.3")].

Definition database (signals : list Engine.row) : Engine.db :=
  [("Jobs", Engine.mkTable (DAO.SCHEMA DAO.JobDAO) [job_row]);
   ("Signals", Engine.mkTable (DAO.SCHEMA DAO.SignalDAO) signals);
   ("StoredValues", Engine.mkTable (DAO.SCHEMA DAO.StoredValuesDAO) [])].

Definition world_at (clock : nat -> Datetime.t) (signals : list Engine.row) : World.t :=
  World.mk clock 0 (database signals) [] [] [].

Definition world (signals : list Engine.row) : World.t := world_at ticking signals.

Definition fresh_signal : Signal.t :=
  Signal.mk (PyStr "j1") PyNone (PyStr "doge") PyNone PyNone.

(** The job [j1] as its constructor leaves it, given its signal. *)
Definition job_from (run_datetime : Datetime.t) (s : Signal.t) : Job.t :=
  Job.mk [] (PyStr "INITIATED") PyNone (PyStr "doge") (PyStr "ops@example.org")
         run_datetime [("round_dp", PyInt 2)] (PyStr "j1") s.

Definition job : Job.t := job_from start fresh_signal.

(** [Signal(...)] on a database with the given earlier signals, then one
    call of [set]. *)
Definition signal_run (signals : list Engine.row) (action confidence : value)
  : Eff.res unit * (Signal.t * World.t) :=
  match Signal.__init__ (PyStr "j1") (PyStr "doge") (world signals) with
  | (Eff.Ok s, w) => Signal.set action confidence (s, w)
  | (Eff.Raised e, w) => (Eff.Raised e, (fresh_signal, w))
  end.

Definition rows_of (table : string) (w : World.t) : list Engine.row :=
  match dict_get (World.tables w) table with
  | Some t => Engine.rows t
  | None => []
  end.

(** A table of signals in which one row has no timestamp. *)
Definition dated_row : Engine.row :=
  [("id", Some "a1"); ("job_id", Some "j1"); ("datetime", Some "20210101000000");
   ("name", Some "doge"); ("action", Some "BUY"); ("confidence", Some "0.5")].
Definition undated_row : Engine.row :=
  [("id", Some "a2"); ("job_id", Some "j0"); ("datetime", None);
   ("name", Some "doge"); ("action", Some "SELL"); ("confidence", None)].
Definition signals_with_null : Engine.table :=
  Engine.mkTable (DAO.SCHEMA DAO.SignalDAO) [dated_row; undated_row].

End Demo.

(* ===================================================================== *)
(** * Properties of the SQL text *)
(* ===================================================================== *)

Module DatabaseFacts.
Import Py Database.

(** ** The condition grammar *)

(** The clause the specification gives for one entry of a mapping: a
    membership clause for a list, an equality for a scalar. *)
Definition entry_clause (entry : string * where_value) : string :=
  match snd entry with
  | WList items => fst entry ++ " in (" ++ String.concat "," items ++ ")"
  | WScalar v => fst entry ++ " = " ++ dq ++ str v ++ dq
  end.

Lemma where_step_clause acc entry :
  where_step acc entry = (acc ++ [entry_clause entry])%list.
Proof. destruct entry as [column [items | v]]; reflexivity. Qed.

Lemma where_loop d : forall acc,
  fold_left where_step d acc = (acc ++ map entry_clause d)%list.
Proof.
  induction d as [| entry d IH]; intros acc; simpl.
  - now rewrite app_nil_r.
  - rewrite IH, where_step_clause, <- app_assoc. reflexivity.
Qed.

Lemma parse_where_dict_clauses d :
  _parse_where_dict d = String.concat " AND " (map entry_clause d).
Proof.
  unfold _parse_where_dict. rewrite where_loop. simpl.
  destruct (map entry_clause d); reflexivity.
Qed.

(** C9. A mapping condition gives [ WHERE ] followed by one clause per
    entry, in the order of the mapping and joined by [ AND ]: a list value
    gives [column in (a,b,...)] and a scalar [column = "value"]. A raw
    string follows [ WHERE ] as it is, and no condition gives no text. *)
Theorem generate_condition_grammar :
  (forall d, _generate_condition (Some (CondDict d))
             = " WHERE " ++ String.concat " AND " (map entry_clause d))
  /\ (forall column items,
         entry_clause (column, WList items)
         = column ++ " in (" ++ String.concat "," items ++ ")")
  /\ (forall column v,
         entry_clause (column, WScalar v) = column ++ " = " ++ dq ++ str v ++ dq)
  /\ (forall s, _generate_condition (Some (CondRaw s)) = " WHERE " ++ s)
  /\ _generate_condition None = "".
Proof.
  repeat split; try reflexivity.
  intros d. simpl. unfold CONDITION_TEMPLATE.
  now rewrite parse_where_dict_clauses.
Qed.

(** ** Quoting of values *)

Lemma has_char_app c a b :
  has_char c (a ++ b) = has_char c a || has_char c b.
Proof.
  induction a as [| x a IH]; simpl; [reflexivity |].
  now rewrite IH, orb_assoc.
Qed.

Lemma replace_char_removes old new s :
  has_char old new = false -> has_char old (replace_char old new s) = false.
Proof.
  intros Hnew. induction s as [| c s IH]; simpl; [reflexivity |].
  destruct (Ascii.eqb c old) eqn:E.
  - now rewrite has_char_app, Hnew, IH.
  - simpl. now rewrite E.
Qed.


(** The body of the literal [_clean_string] writes holds no double quote. *)
Lemma clean_string_escapes v :
  exists body, _clean_string v = dq ++ body ++ dq
               /\ has_char "034"%char body = false.
Proof.
  unfold _clean_string. eexists. split; [reflexivity |].
  now apply replace_char_removes.
Qed.

(** [update] quotes every value with [_clean_string]. *)
Lemma update_text table values cond :
  update table values cond
  = "UPDATE " ++ table ++ " SET "
      ++ String.concat ","
           (map (fun cv => dq ++ fst cv ++ dq ++ "=" ++ _clean_string (snd cv)) values)
      ++ _generate_condition cond ++ ";".
Proof. reflexivity. Qed.

(** [insert] writes a string between double quotes as it is. *)
Lemma insert_value_verbatim s : insert_value (PyStr s) = dq ++ s ++ dq.
Proof. reflexivity. Qed.

(** C8, on [insert]: a string value is written between double quotes
    as it is, whatever it holds. A value that holds a double quote thus
    reaches the statement with the quote in place, where [update] writes
    a single quote for it. *)
Theorem insert_keeps_double_quote :
  (forall table column s,
      insert table [(column, PyStr s)]
      = "INSERT INTO " ++ table ++ " (" ++ column ++ ") VALUES ("
          ++ (dq ++ s ++ dq) ++ ");")
  /\ (let v := PyStr ("5" ++ dq ++ " disk") in
      insert "StoredValues" [("key", PyStr "size"); ("value", v)]
      = "INSERT INTO StoredValues (key,value) VALUES (" ++ dq ++ "size" ++ dq ++ ","
          ++ dq ++ "5" ++ dq ++ " disk" ++ dq ++ ");"
      /\ insert_value v = dq ++ ("5" ++ dq ++ " disk") ++ dq
      /\ has_char "034"%char ("5" ++ dq ++ " disk") = true
      /\ update "StoredValues" [("value", v)] None
         = "UPDATE StoredValues SET " ++ dq ++ "value" ++ dq ++ "=" ++ dq ++ "5' disk"
             ++ dq ++ ";").
Proof.
  split.
  - intros table column s. unfold insert, QUERY_insert. reflexivity.
  - cbv zeta. split; [reflexivity |]. split; [reflexivity |].
    split; reflexivity.
Qed.

End DatabaseFacts.

(* ===================================================================== *)
(** * Properties of the ordering *)
(* ===================================================================== *)

Module EngineFacts.
Import Py Engine.

(** [r1] may come before [r2] under [ORDER BY key DESC]. *)
Definition key_ge (c : string) (r1 r2 : row) : Prop :=
  String.leb (sort_key c r2) (sort_key c r1) = true.

(** What the specification asks of a result sorted by [c]: once a row
    with a null [c] is met, only such rows follow. *)
Definition nulls_last (c : string) (result : list row) : Prop :=
  forall i j r1 r2,
    (i < j)%nat -> nth_error result i = Some r1 -> nth_error result j = Some r2 ->
    cell r1 c = None -> cell r2 c = None.

Lemma ascii_compare_lt_trans x y z :
  Ascii.compare x y = Lt -> Ascii.compare y z = Lt -> Ascii.compare x z = Lt.
Proof. unfold Ascii.compare. rewrite !N.compare_lt_iff. lia. Qed.

Lemma leb_trans a : forall b c,
  String.leb a b = true -> String.leb b c = true -> String.leb a c = true.
Proof.
  unfold String.leb.
  induction a as [| x a IH]; intros [| y b] [| z c]; simpl; try congruence.
  destruct (Ascii.compare x y) eqn:Exy; try congruence.
  - apply Ascii.compare_eq_iff in Exy. subst y.
    destruct (Ascii.compare x z) eqn:Exz; try congruence.
    apply IH.
  - destruct (Ascii.compare y z) eqn:Eyz; try congruence.
    + apply Ascii.compare_eq_iff in Eyz. subst z. now rewrite Exy.
    + now rewrite (ascii_compare_lt_trans _ _ _ Exy Eyz).
Qed.

Lemma leb_refl a : String.leb a a = true.
Proof. destruct (String.leb_total a a); assumption. Qed.

Lemma leb_false_flip a b : String.leb a b = false -> String.leb b a = true.
Proof.
  intros H. destruct (String.leb_total a b) as [E | E]; congruence.
Qed.

Section Ordering.
Variable key : row -> string.

Let ge (r1 r2 : row) : Prop := String.leb (key r2) (key r1) = true.

Lemma place_desc_perm x l : Permutation (x :: l) (place_desc key x l).
Proof.
  induction l as [| y l IH]; simpl; [apply Permutation_refl |].
  destruct (String.leb (key y) (key x)); [apply Permutation_refl |].
  eapply perm_trans; [apply perm_swap |]. now apply perm_skip.
Qed.

Lemma order_desc_perm l : Permutation l (order_desc key l).
Proof.
  induction l as [| x l IH]; simpl; [constructor |].
  eapply perm_trans; [apply perm_skip, IH | apply place_desc_perm].
Qed.

Lemma place_desc_sorted x l :
  StronglySorted ge l -> StronglySorted ge (place_desc key x l).
Proof.
  induction 1 as [| y l Hl IH Hy]; simpl.
  - repeat constructor.
  - destruct (String.leb (key y) (key x)) eqn:E.
    + constructor; [now constructor |].
      constructor; [exact E |].
      eapply Forall_impl; [| exact Hy].
      intros r Hr. unfold ge in *. eapply leb_trans; eassumption.
    + constructor; [exact IH |].
      eapply Permutation_Forall; [apply place_desc_perm |].
      constructor; [| exact Hy].
      unfold ge. now apply leb_false_flip.
Qed.

Lemma order_desc_sorted l : StronglySorted ge (order_desc key l).
Proof.
  induction l as [| x l IH]; simpl; [constructor | now apply place_desc_sorted].
Qed.

End Ordering.

Lemma strongly_sorted_nth {A} (R : A -> A -> Prop) l :
  StronglySorted R l ->
  forall i j a b, (i < j)%nat -> nth_error l i = Some a -> nth_error l j = Some b ->
                  R a b.
Proof.
  induction 1 as [| x l Hl IH Hx]; intros i j a b Hij Hi Hj.
  - destruct i; discriminate.
  - destruct j as [| j]; [lia |]. simpl in Hj.
    destruct i as [| i]; simpl in Hi.
    + injection Hi as <-. rewrite Forall_forall in Hx.
      eapply Hx, nth_error_In, Hj.
    + eapply IH; [| eassumption | eassumption]. lia.
Qed.

(** C6, as stated, fails: the row without a timestamp is returned first,
    before the dated one, and it is the row a new [Signal] loads. *)
Lemma sortby_returns_null_row_first :
  let result :=
    select Demo.signals_with_null (Some [("name", PyStr "doge")]) (Some "datetime") in
  Database.select "Signals" None None (Some "datetime") false
  = "SELECT * FROM Signals ORDER BY CASE WHEN datetime IS null THEN 'ZZZZZZZZZZZZZZ' else datetime END DESC;"
  /\ result = [Demo.undated_row; Demo.dated_row]
  /\ cell Demo.undated_row "datetime" = None
  /\ cell Demo.dated_row "datetime" = Some "20210101000000"
  /\ (nulls_last "datetime" result -> False)
  /\ fst (Signal.__init__ (PyStr "j1") (PyStr "doge")
            (Demo.world [Demo.dated_row; Demo.undated_row]))
     = Eff.Ok (Signal.mk (PyStr "j1") PyNone (PyStr "doge") (PyStr "SELL") PyNone).
Proof.
  cbv zeta. split; [reflexivity |]. split; [reflexivity |].
  split; [reflexivity |]. split; [reflexivity |]. split; [| reflexivity].
  intros H. specialize (H 0%nat 1%nat Demo.undated_row Demo.dated_row).
  simpl in H. discriminate H; auto.
Qed.

(** C6, amended. The statement ends with the [ORDER BY ... DESC] clause
    over the column, in which null stands as ['ZZZZZZZZZZZZZZ']. The
    selected rows come back in descending order of that key, so the first
    one has the greatest key. Every row that comes before a row with a
    null column has a key at or above the sentinel, and so has the first
    row as soon as one selected row has a null column: such rows are
    first among the timestamps, not last. *)
Theorem select_sortby_descending
    (table_name : string) (cols : option Database.columns)
    (cond : option Database.condition) (c : string) (distinct : bool)
    (t : table) (where_ : option (dict value)) :
  let result := select t where_ (Some c) in
  Database.select table_name cols cond (Some c) distinct
  = (if distinct then Database.QUERY_select_distinct else Database.QUERY_select)
      (Database._generate_columns cols) table_name
      (Database._generate_condition cond ++ " ORDER BY CASE WHEN " ++ c
         ++ " IS null THEN 'ZZZZZZZZZZZZZZ' else " ++ c ++ " END DESC")
  /\ Permutation (filter (selects where_) (rows t)) result
  /\ StronglySorted (key_ge c) result
  /\ (forall first rest, result = first :: rest -> Forall (key_ge c first) rest)
  /\ (forall i j r1 r2,
         (i < j)%nat -> nth_error result i = Some r1 -> nth_error result j = Some r2 ->
         cell r2 c = None ->
         String.leb Database.SORT_SENTINEL (sort_key c r1) = true)
  /\ (forall first rest r,
         result = first :: rest -> In r result -> cell r c = None ->
         String.leb Database.SORT_SENTINEL (sort_key c first) = true).
Proof.
  intros result.
  assert (Hs : StronglySorted (key_ge c) result)
    by apply order_desc_sorted.
  assert (Hfirst : forall first rest,
             result = first :: rest -> Forall (key_ge c first) rest).
  { intros first rest E. rewrite E in Hs. now inversion Hs. }
  split; [reflexivity |].
  split; [apply order_desc_perm |].
  split; [exact Hs |].
  split; [exact Hfirst |].
  split.
  - intros i j r1 r2 Hij Hi Hj Hnull.
    pose proof (strongly_sorted_nth _ _ Hs i j r1 r2 Hij Hi Hj) as H.
    unfold key_ge in H. unfold sort_key in H at 1. now rewrite Hnull in H.
  - intros first rest r E Hin Hnull.
    assert (Hkey : sort_key c r = Database.SORT_SENTINEL)
      by (unfold sort_key; now rewrite Hnull).
    rewrite E in Hin. destruct Hin as [-> | Hin].
    + rewrite Hkey. apply leb_refl.
    + pose proof (Hfirst first rest E) as Hall. rewrite Forall_forall in Hall.
      specialize (Hall r Hin). unfold key_ge in Hall. now rewrite Hkey in Hall.
Qed.

End EngineFacts.

(* ===================================================================== *)
(** * Properties of the record accessor *)
(* ===================================================================== *)

Module DAOFacts.
Import Py Eff World.

(** The clock reading the next call gets, and the world after it. *)
Definition reading (w : World.t) : Datetime.t := clock w (reads w).

Definition after_reading (w : World.t) : World.t :=
  mk (clock w) (S (reads w)) (tables w) (executed w) (log w) (outbox w).

(** The world after a statement that turned [table] into [t']. *)
Definition after_statement (sql table : string) (t' : Engine.table) (w : World.t)
  : World.t :=
  mk (clock w) (reads w) (dict_set (tables w) table t') (executed w ++ [sql])
     (log w) (outbox w).

(** The world after a statement the engine refused. *)
Definition after_refusal (sql : string) (w : World.t) : World.t :=
  mk (clock w) (reads w) (tables w) (executed w ++ [sql]) (log w) (outbox w).

(** The mapping [new] inserts: the given columns, the fresh [id], then
    the columns of the schema that were missing. *)
Definition new_row (dao : DAO.t) (data_dict : dict value) (w : World.t) : dict value :=
  DAO.fill_missing (DAO.SCHEMA dao)
    (dict_set data_dict DAO.STANDARD_ID
       (PyStr (DAO.md5_hexdigest (Datetime.strftime_micros (reading w))))).

Definition new_id (dao : DAO.t) (data_dict : dict value) (w : World.t) : value :=
  match dict_get (new_row dao data_dict w) DAO.STANDARD_ID with
  | Some v => v
  | None => PyNone
  end.

(** Unfold one accessor call down to the lookup of its table. *)
Ltac run_dao :=
  cbv beta iota zeta delta
    [DAO.new DAO.update DAO.read DAO.unique_id DAO.execute_sql
     bind ret get modify raise now record_sql with_tables];
  cbn [clock reads tables executed log outbox fst snd].

Lemma new_ok dao data_dict w t :
  dict_get (tables w) (DAO.TABLE dao) = Some t ->
  DAO.new dao data_dict w
  = (Ok (new_id dao data_dict w),
     after_statement (Database.insert (DAO.TABLE dao) (new_row dao data_dict w))
       (DAO.TABLE dao) (Engine.insert t (new_row dao data_dict w))
       (after_reading w)).
Proof.
  intros H. run_dao. rewrite H. reflexivity.
Qed.

Lemma new_refused dao data_dict w :
  dict_get (tables w) (DAO.TABLE dao) = None ->
  DAO.new dao data_dict w
  = (Raised ("no such table: " ++ DAO.TABLE dao),
     after_refusal (Database.insert (DAO.TABLE dao) (new_row dao data_dict w))
       (after_reading w)).
Proof.
  intros H. run_dao. rewrite H. reflexivity.
Qed.

Definition update_sql (dao : DAO.t) (entry_id : value) (values_dict : dict value)
  : string :=
  Database.update (DAO.TABLE dao) values_dict
    (DAO.as_condition (DAO.choose_condition entry_id None)).

Lemma update_ok dao entry_id values_dict w t :
  dict_get (tables w) (DAO.TABLE dao) = Some t ->
  DAO.update dao entry_id values_dict None w
  = (Ok tt,
     after_statement (update_sql dao entry_id values_dict) (DAO.TABLE dao)
       (Engine.update t values_dict (DAO.choose_condition entry_id None)) w).
Proof.
  intros H. run_dao. rewrite H. reflexivity.
Qed.


(** A table that was just written is the one found under its name. *)
Lemma dict_get_set {V} (d : dict V) k v : dict_get (dict_set d k v) k = Some v.
Proof.
  induction d as [| [k' v'] d IH]; simpl.
  - now rewrite String.eqb_refl.
  - destruct (String.eqb k' k) eqn:E; simpl; rewrite E; [reflexivity | exact IH].
Qed.

(** The row a well-formed [new] adds is the last row of its table. *)
Lemma insert_appends t values :
  Engine.rows (Engine.insert t values)
  = (Engine.rows t
       ++ [map (fun kv => (fst kv, Engine.inserted_cell (snd kv))) values])%list.
Proof. reflexivity. Qed.

End DAOFacts.

(* ===================================================================== *)
(** * Properties of Signal *)
(* ===================================================================== *)

Module SignalFacts.
Import Py Eff World DAOFacts.

Definition actions : list value :=
  [PyStr Signal.HOLD; PyStr Signal.SELL; PyStr Signal.BUY].

(** The mapping [set] hands to the accessor. *)
Definition signal_data (s : Signal.t) (action confidence : value) (w : World.t)
  : dict value :=
  [("job_id", Signal._job_id s);
   ("name", Signal.name s);
   ("datetime", PyStr (Datetime.strftime_seconds (reading w)));
   ("action", action);
   ("confidence", confidence)].

Lemma pow10_pos k : 0 < pow10 k.
Proof. unfold pow10. apply Z.pow_pos_nonneg; lia. Qed.

(** [0 >= confidence >= 1] holds of no number. *)
Lemma range_test_never_holds c : lit_ge 0 c && ge_lit c 1 = false.
Proof.
  unfold lit_ge, ge_lit. destruct (as_dec c) as [x |]; [| reflexivity].
  unfold dec_leb, dec_of_Z. cbn [mant scale].
  pose proof (pow10_pos (scale x)) as Hx.
  change (pow10 0) with 1.
  destruct (mant x * 1 <=? 0 * pow10 (scale x)) eqn:E1; [| reflexivity].
  apply Z.leb_le in E1. apply Z.leb_gt. lia.
Qed.

Lemma round_number c :
  is_float c || is_int c = true -> exists c', round c (PyInt 2) = Some c'.
Proof. destruct c; simpl; try discriminate; eauto. Qed.

(** With one of the three actions and a number of any size, [set] goes
    through: the row it adds holds the number rounded to 2 places. *)
Lemma set_number s w action confidence t :
  mem action actions = true ->
  is_float confidence || is_int confidence = true ->
  dict_get (tables w) "Signals" = Some t ->
  exists c,
    round confidence (PyInt 2) = Some c
    /\ Signal.set action confidence (s, w)
       = (Ok tt,
          (Signal.mk (Signal._job_id s) action (Signal.name s) action c,
           let data := new_row DAO.SignalDAO (signal_data s action c w) (after_reading w) in
           after_statement (Database.insert "Signals" data) "Signals"
             (Engine.insert t data) (after_reading (after_reading w)))).
Proof.
  intros Ha Hc Ht. destruct (round_number _ Hc) as [c Hr]. exists c.
  split; [exact Hr |].
  unfold Signal.set. fold actions. rewrite Ha, Hc, range_test_never_holds, Hr.
  cbv beta iota zeta delta [bind ret assign self world_op now fst snd negb orb
    Signal.set__previous_action Signal.set_action Signal.set_confidence].
  cbn [Signal._job_id Signal._previous_action Signal.name Signal.action
       Signal.confidence clock reads tables executed log outbox].
  rewrite (new_ok DAO.SignalDAO _ (after_reading w) t Ht).
  reflexivity.
Qed.

(** A confidence that is no number is refused, and nothing is changed. *)
Lemma set_not_a_number s w action confidence :
  mem action actions = true ->
  is_float confidence || is_int confidence = false ->
  Signal.set action confidence (s, w) = (Raised Signal.confidence_error, (s, w)).
Proof.
  intros Ha Hc. unfold Signal.set. fold actions. rewrite Ha, Hc. reflexivity.
Qed.

(** Another action is refused, and nothing is changed. *)
Lemma set_bad_action s w action confidence :
  mem action actions = false ->
  Signal.set action confidence (s, w) = (Raised Signal.action_error, (s, w)).
Proof.
  intros Ha. unfold Signal.set. fold actions. rewrite Ha. reflexivity.
Qed.

(** The row [set] adds. *)
Definition signal_row (s : Signal.t) (action confidence : value) (w : World.t)
  : Engine.row :=
  [("job_id", Engine.inserted_cell (Signal._job_id s));
   ("name", Engine.inserted_cell (Signal.name s));
   ("datetime", Some (Datetime.strftime_seconds (reading w)));
   ("action", Engine.inserted_cell action);
   ("confidence", Engine.inserted_cell confidence);
   ("id", Some (DAO.md5_hexdigest
                  (Datetime.strftime_micros (reading (after_reading w)))))].

(** C1, on the code: with one of the three actions, [set] accepts every
    int and every float, inside the range or not. It returns, keeps the
    confidence rounded to 2 places and adds a row that holds it. The
    range test is there and never holds. *)
Theorem set_accepts_every_number s w action confidence t :
  mem action actions = true ->
  is_float confidence || is_int confidence = true ->
  dict_get (tables w) "Signals" = Some t ->
  lit_ge 0 confidence && ge_lit confidence 1 = false
  /\ exists c w',
      round confidence (PyInt 2) = Some c
      /\ Signal.set action confidence (s, w)
         = (Ok tt, (Signal.mk (Signal._job_id s) action (Signal.name s) action c, w'))
      /\ Demo.rows_of "Signals" w' = (Engine.rows t ++ [signal_row s action c w])%list.
Proof.
  intros Ha Hc Ht. split; [apply range_test_never_holds |].
  destruct (set_number s w action confidence t Ha Hc Ht) as (c & Hr & E).
  exists c. eexists. split; [exact Hr |]. split; [exact E |].
  unfold Demo.rows_of, after_statement. cbn [tables DAO.TABLE DAO.SignalDAO].
  rewrite dict_get_set. reflexivity.
Qed.

Lemma set_accepts_every_number_witness :
  mem (PyStr Signal.BUY) actions = true
  /\ is_float (PyFloat (mkDec 15 1)) || is_int (PyFloat (mkDec 15 1)) = true
  /\ dict_get (tables (Demo.world [])) "Signals"
     = Some (Engine.mkTable (DAO.SCHEMA DAO.SignalDAO) [])
  /\ ge_lit (PyFloat (mkDec 15 1)) 1 = true
  /\ fst (Signal.set (PyStr Signal.BUY) (PyFloat (mkDec 15 1))
            (Demo.fresh_signal, Demo.world []))
     = Ok tt.
Proof.
  refine (conj eq_refl (conj eq_refl (conj eq_refl (conj eq_refl _)))).
  destruct (set_accepts_every_number Demo.fresh_signal (Demo.world [])
              (PyStr Signal.BUY) (PyFloat (mkDec 15 1)) _ eq_refl eq_refl eq_refl)
    as (_ & c & w' & _ & E & _).
  rewrite E. reflexivity.
Defined.

(** The same call, run: the row that is added holds 1.5. *)
Example set_confidence_above_one_run :
  let run := Demo.signal_run [] (PyStr Signal.BUY) (PyFloat (mkDec 15 1)) in
  fst run = Ok tt
  /\ Signal.confidence (fst (snd run)) = PyFloat (mkDec 15 1)
  /\ Demo.rows_of "Signals" (snd (snd run))
     = [[("job_id", Some "j1"); ("name", Some "doge");
         ("datetime", Some "20210101000000"); ("action", Some "BUY");
         ("confidence", Some "1.5"); ("id", Some "md5(20210101000000250000)")]].
Proof. vm_compute. repeat split. Qed.

(** ** [has_changed] *)

Lemma action_is_string action :
  mem action actions = true -> exists a, action = PyStr a.
Proof. destruct action; simpl; try discriminate; eauto. Qed.

Lemma eqb_same_action action : mem action actions = true -> eqb action action = true.
Proof.
  intros H. destruct (action_is_string _ H) as [a ->]. simpl. apply String.eqb_refl.
Qed.

(** Without its table, [set] has already assigned both action fields
    when the engine refuses the statement. *)
Lemma set_without_table s w action confidence :
  mem action actions = true ->
  is_float confidence || is_int confidence = true ->
  dict_get (tables w) "Signals" = None ->
  exists s' w',
    Signal.set action confidence (s, w) = (Raised "no such table: Signals", (s', w'))
    /\ Signal._previous_action s' = action /\ Signal.action s' = action.
Proof.
  intros Ha Hc Ht. destruct (round_number _ Hc) as [c Hr].
  unfold Signal.set. fold actions. rewrite Ha, Hc, range_test_never_holds, Hr.
  cbv beta iota zeta delta [bind ret assign self world_op now fst snd negb orb
    Signal.set__previous_action Signal.set_action Signal.set_confidence].
  cbn [Signal._job_id Signal._previous_action Signal.name Signal.action
       Signal.confidence clock reads tables executed log outbox].
  rewrite (new_refused DAO.SignalDAO _ (after_reading w) Ht).
  do 2 eexists. split; [reflexivity |]. split; reflexivity.
Qed.

(** After any [set] that returns, the two action fields are the same
    value: the one just given. *)
Lemma set_aligns_previous_action s w action confidence s' w' :
  Signal.set action confidence (s, w) = (Ok tt, (s', w')) ->
  Signal._previous_action s' = action /\ Signal.action s' = action
  /\ mem action actions = true.
Proof.
  intros H.
  destruct (mem action actions) eqn:Ha;
    [| rewrite (set_bad_action _ _ _ _ Ha) in H; discriminate].
  destruct (is_float confidence || is_int confidence) eqn:Hc;
    [| rewrite (set_not_a_number _ _ _ _ Ha Hc) in H; discriminate].
  destruct (dict_get (tables w) "Signals") as [t |] eqn:Ht.
  - destruct (set_number s w _ _ t Ha Hc Ht) as (c & _ & E).
    rewrite E in H. injection H as <- _. repeat split.
  - destruct (set_without_table s w _ _ Ha Hc Ht) as (s1 & w1 & E & _).
    rewrite E in H. discriminate.
Qed.

(** C2, on the code: after every [set] that returns, [has_changed]
    answers false, whatever action was loaded when the signal was built
    and whatever action is set. *)
Theorem has_changed_false_after_set s w action confidence :
  fst (Signal.set action confidence (s, w)) = Ok tt ->
  Signal.has_changed (fst (snd (Signal.set action confidence (s, w)))) = false.
Proof.
  destruct (Signal.set action confidence (s, w)) as [r [s' w']] eqn:E.
  cbn [fst snd]. intros ->.
  apply set_aligns_previous_action in E as (Hp & Hn & Ha).
  unfold Signal.has_changed. rewrite Hp, Hn, (eqb_same_action _ Ha). reflexivity.
Qed.

Lemma has_changed_false_after_set_witness :
  fst (Signal.set (PyStr Signal.BUY) (PyFloat (mkDec 5 1))
         (Demo.fresh_signal, Demo.world []))
  = Ok tt
  /\ Signal.has_changed
       (fst (snd (Signal.set (PyStr Signal.BUY) (PyFloat (mkDec 5 1))
                    (Demo.fresh_signal, Demo.world []))))
     = false.
Proof.
  split; [reflexivity |].
  exact (has_changed_false_after_set Demo.fresh_signal (Demo.world [])
           (PyStr Signal.BUY) (PyFloat (mkDec 5 1)) eq_refl).
Defined.

(** A first run and a run after a SELL: the signal is built (with no
    action, then with the SELL that was stored), BUY is set, and
    [has_changed] answers false both times. *)
Example has_changed_after_new_action_runs :
  let first := Demo.signal_run [] (PyStr Signal.BUY) (PyFloat (mkDec 5 1)) in
  let later := Demo.signal_run [Demo.sell_row] (PyStr Signal.BUY) (PyFloat (mkDec 5 1)) in
  fst (Signal.__init__ (PyStr "j1") (PyStr "doge") (Demo.world []))
  = Ok Demo.fresh_signal
  /\ fst first = Ok tt
  /\ Signal.action (fst (snd first)) = PyStr "BUY"
  /\ Signal.has_changed (fst (snd first)) = false
  /\ fst (Signal.__init__ (PyStr "j1") (PyStr "doge") (Demo.world [Demo.sell_row]))
     = Ok (Signal.mk (PyStr "j1") PyNone (PyStr "doge") (PyStr "SELL") (PyStr "0.3"))
  /\ fst later = Ok tt
  /\ Signal.action (fst (snd later)) = PyStr "BUY"
  /\ Signal.has_changed (fst (snd later)) = false.
Proof. vm_compute. repeat split. Qed.

End SignalFacts.

(* ===================================================================== *)
(** * Properties of Job: the status *)
(* ===================================================================== *)

Module StatusFacts.
Import Py Eff World DAOFacts.


(** The world after one more log record. *)
Definition after_log (l : level) (msg : string) (w : World.t) : World.t :=
  mk (clock w) (reads w) (tables w) (executed w) (log w ++ [(l, msg)]) (outbox w).

Definition status_level (status : string) : level :=
  if String.eqb status JobStatus.FAILED then WARNING else INFO.

(** Seconds between the run timestamp and the next clock reading. *)
Definition elapsed (j : Job.t) (w : World.t) : dec :=
  Datetime.total_seconds (reading w) (Job.run_datetime j).

(** The mapping [set_status] hands to the accessor. *)
Definition status_values (status : string) (j : Job.t) (w : World.t) : dict value :=
  [("status", PyStr status); ("seconds_elapsed", PyFloat (elapsed j w))].

(** The world after a status was written to the table [t] of jobs. *)
Definition after_status (status : string) (j : Job.t) (t : Engine.table) (w : World.t)
  : World.t :=
  after_statement (update_sql DAO.JobDAO (Job.id j) (status_values status j w)) "Jobs"
    (Engine.update t (status_values status j w) (DAO.choose_condition (Job.id j) None))
    (after_log (status_level status) (Job.status_message status) (after_reading w)).

Ltac run_status :=
  cbv beta iota zeta delta
    [Job.set_status bind ret raise assign self world_op of_res now log_record
     modify fst snd];
  cbn [clock reads tables executed log outbox
       Job.id Job.run_datetime Job.status Job.set_status_attr].

Lemma is_valid_ok status :
  str_in (upper status) JobStatus.VALID = true -> JobStatus.is_valid status = Ok true.
Proof. intros H. unfold JobStatus.is_valid. now rewrite H. Qed.


Lemma set_status_written j w status t :
  str_in (upper status) JobStatus.VALID = true ->
  dict_get (tables w) "Jobs" = Some t ->
  Job.set_status status (j, w)
  = (Ok tt, (Job.set_status_attr (PyStr status) j, after_status status j t w)).
Proof.
  intros Hv Ht. run_status. rewrite (is_valid_ok _ Hv).
  unfold after_status, status_level.
  destruct (String.eqb status JobStatus.FAILED);
    cbn [clock reads tables executed log outbox];
    erewrite (update_ok DAO.JobDAO _ _ _ t) by exact Ht; reflexivity.
Qed.



(** ** The text that is written *)






(** ** C3 *)




(** ** C10 *)




End StatusFacts.

(* ===================================================================== *)
(** * Properties of StoredValue *)
(* ===================================================================== *)

Module StoredValueFacts.
Import Py Eff World DAOFacts.

(** The value [set] keeps in memory: a float goes through [_round]. *)
Definition kept (s : StoredValue.t) (v : value) : res value :=
  if is_float v then StoredValue._round s v else Ok v.

(** The row [set] adds: its [value] cell is made from the argument. *)
Definition stored_row (s : StoredValue.t) (v : value) (w : World.t) : Engine.row :=
  [("job_id", Engine.inserted_cell (StoredValue.job_id s));
   ("datetime", Some (Datetime.strftime_seconds (reading w)));
   ("key", Engine.inserted_cell (StoredValue.key s));
   ("value", Engine.inserted_cell v);
   ("id", Some (DAO.md5_hexdigest
                  (Datetime.strftime_micros (reading (after_reading w)))))].

(** C4, on the code: [set] keeps in memory the value that went through
    [_round] and adds a row whose [value] cell is made from the argument
    as it was given, rounded or not. *)
Theorem set_writes_argument s w v t r :
  dict_get (tables w) "StoredValues" = Some t ->
  kept s v = Ok r ->
  Engine.cell (stored_row s v w) "value" = Engine.inserted_cell v
  /\ exists w',
      StoredValue.set v (s, w) = (Ok tt, (StoredValue.set_value r s, w'))
      /\ Demo.rows_of "StoredValues" w' = (Engine.rows t ++ [stored_row s v w])%list.
Proof.
  intros Ht Hk. split; [reflexivity |].
  unfold kept in Hk. unfold StoredValue.set.
  cbv beta iota zeta delta [bind ret assign self world_op of_res now fst snd].
  destruct (is_float v); [rewrite Hk | injection Hk as ->];
    cbn [clock reads tables executed log outbox];
    (erewrite (new_ok DAO.StoredValuesDAO _ _ t) by exact Ht);
    (eexists; split; [reflexivity |]);
    unfold Demo.rows_of, after_statement;
    cbn [tables DAO.TABLE DAO.StoredValuesDAO];
    rewrite dict_get_set; reflexivity.
Qed.

Lemma set_writes_argument_witness :
  let s := StoredValue.mk (PyInt 2) (PyStr "j1") (PyStr "x") PyNone None None None in
  let v := PyFloat (mkDec 314159 5) in
  dict_get (tables (Demo.world [])) "StoredValues"
  = Some (Engine.mkTable (DAO.SCHEMA DAO.StoredValuesDAO) [])
  /\ kept s v = Ok (PyFloat (mkDec 314 2))
  /\ Engine.cell (stored_row s v (Demo.world [])) "value" = Some "3.14159"
  /\ StoredValue.value (fst (snd (StoredValue.set v (s, Demo.world []))))
     = PyFloat (mkDec 314 2).
Proof.
  cbv zeta.
  refine (conj eq_refl (conj eq_refl (conj eq_refl _))).
  destruct (set_writes_argument
              (StoredValue.mk (PyInt 2) (PyStr "j1") (PyStr "x") PyNone None None None)
              (Demo.world []) (PyFloat (mkDec 314159 5)) _ (PyFloat (mkDec 314 2))
              eq_refl eq_refl)
    as (_ & w' & E & _).
  rewrite E. reflexivity.
Defined.

(** An int or a string is kept as it is, and a float too when no
    precision is configured. *)
Lemma kept_unrounded s v :
  is_float v = false \/ truthy (StoredValue._round_dp s) = false -> kept s v = Ok v.
Proof.
  unfold kept, StoredValue._round. intros [H | H].
  - now rewrite H.
  - rewrite H. now destruct (is_float v).
Qed.

(** A float is rounded in memory when the precision is a non-zero int. *)
Lemma kept_rounded s x n :
  StoredValue._round_dp s = PyInt n -> n <> 0 ->
  kept s (PyFloat x) = Ok (PyFloat (round_float x n)).
Proof.
  intros E Hn. unfold kept, StoredValue._round. rewrite E. cbn [is_float truthy].
  destruct (n =? 0) eqn:Z0; [apply Z.eqb_eq in Z0; contradiction |]. reflexivity.
Qed.

(** [store_value] of 3.14159 with precision 2, run: the value kept in
    memory is 3.14 and the row that is added holds 3.14159. *)
Example store_value_run :
  let run := Job.store_value "x" (PyFloat (mkDec 314159 5)) (Demo.job, Demo.world []) in
  fst run = Ok tt
  /\ option_map StoredValue.value (dict_get (Job._stored_values (fst (snd run))) "x")
     = Some (PyFloat (mkDec 314 2))
  /\ Demo.rows_of "StoredValues" (snd (snd run))
     = [[("job_id", Some "j1"); ("datetime", Some "20210101000000"); ("key", Some "x");
         ("value", Some "3.14159"); ("id", Some "md5(20210101000000250000)")]]
  /\ log (snd (snd run)) = [(INFO, "Stored value: x: 3.14")].
Proof. vm_compute. repeat split. Qed.

End StoredValueFacts.

(* ===================================================================== *)
(** * Properties of Job: the run and its end *)
(* ===================================================================== *)

Module WorkFacts.
Import Py Eff Eff.Notations World DAOFacts StatusFacts.
Local Open Scope eff_scope.

(** The world after one more call of the notifier. *)
Definition after_notice (n : notice) (w : World.t) : World.t :=
  mk (clock w) (reads w) (tables w) (executed w) (log w) (outbox w ++ [n]).

(** ** [do_work] *)

(** [do_work] returns, whatever the calculation does. *)
Lemma do_work_returns calc j w : fst (Job.do_work calc (j, w)) = Ok tt.
Proof.
  unfold Job.do_work, bind, catch, assign. cbn [fst snd].
  destruct (calc (Job.set_error PyNone j, w)) as [[[] | e] st]; reflexivity.
Qed.

(** The text of a raised error becomes the error of the job. *)
Lemma do_work_catches calc j w e j' w' :
  calc (Job.set_error PyNone j, w) = (Raised e, (j', w')) ->
  Job.do_work calc (j, w) = (Ok tt, (Job.set_error (PyStr e) j', w')).
Proof.
  intros H. unfold Job.do_work, bind, catch, assign. cbn [fst snd].
  rewrite H. reflexivity.
Qed.

(** A calculation that returns leaves the error at [None], unless it set
    the attribute itself. *)
Lemma do_work_passes calc j w j' w' :
  calc (Job.set_error PyNone j, w) = (Ok tt, (j', w')) ->
  Job.do_work calc (j, w) = (Ok tt, (j', w')).
Proof.
  intros H. unfold Job.do_work, bind, catch, assign. cbn [fst snd].
  rewrite H. reflexivity.
Qed.

(** ** [finish_and_return_code] *)

Ltac run_finish :=
  cbv beta iota zeta delta
    [Job.finish_and_return_code bind ret self world_op log_record send modify
     fst snd];
  cbn [clock reads tables executed log outbox].

(** X13. With an error that is true (a non-empty text), on an existing
    Jobs table, [finish_and_return_code] moves the job to FAILED, writes
    FAILED to its row, sends exactly one notice, the failure notice with
    the job as it then is and the error, and returns the failure code:
    whatever [force_email] is and whatever the signal holds. *)
Lemma finish_failed force j w t :
  truthy (Job.error j) = true ->
  dict_get (tables w) "Jobs" = Some t ->
  let j' := Job.set_status_attr (PyStr JobStatus.FAILED) j in
  exists w',
    Job.finish_and_return_code force (j, w) = (Ok JobStatus.FAIL_CODE, (j', w'))
    /\ outbox w'
       = (outbox w
            ++ [job_failure (Job.email j) (Job.as_dict j') (Job.variables j)
                            (Job.error j)])%list
    /\ dict_get (tables w') "Jobs"
       = Some (Engine.update t (status_values JobStatus.FAILED j w)
                 (DAO.choose_condition (Job.id j) None)).
Proof.
  intros He Ht j'. run_finish. rewrite He.
  rewrite (set_status_written j w JobStatus.FAILED t eq_refl Ht).
  cbn [fst snd clock reads tables executed log outbox
       Job.error Job.email Job.variables Job.set_status_attr].
  eexists. split; [reflexivity |]. cbn [outbox tables].
  split; [reflexivity |].
  unfold after_status, after_statement. cbn [tables].
  now rewrite dict_get_set.
Qed.

(** With an error that is false: SUCCESS, the success code, and the
    report when [has_changed] answers true or [force_email] is set. *)
Lemma finish_succeeded force j w t :
  truthy (Job.error j) = false ->
  dict_get (tables w) "Jobs" = Some t ->
  let j' := Job.set_status_attr (PyStr JobStatus.SUCCESS) j in
  exists w',
    Job.finish_and_return_code force (j, w) = (Ok JobStatus.SUCCESS_CODE, (j', w'))
    /\ outbox w'
       = (outbox w
            ++ (if Signal.has_changed (Job.signal j) || force
                then [signal_change (Job.email j) (Signal.name (Job.signal j))
                                    (Job.Report j')]
                else []))%list
    /\ dict_get (tables w') "Jobs"
       = Some (Engine.update t (status_values JobStatus.SUCCESS j w)
                 (DAO.choose_condition (Job.id j) None)).
Proof.
  intros He Ht j'. run_finish. rewrite He.
  rewrite (set_status_written j w JobStatus.SUCCESS t eq_refl Ht).
  cbn [fst snd clock reads tables executed log outbox
       Job.signal Job.email Job.set_status_attr].
  destruct (Signal.has_changed (Job.signal j) || force);
    cbn [fst snd clock reads tables executed log outbox];
    (eexists; split; [reflexivity |]); cbn [outbox tables];
    (split; [try reflexivity; now rewrite app_nil_r |]);
    unfold after_status, after_statement; cbn [tables];
    now rewrite dict_get_set.
Qed.

(** A calculation that reaches CALCULATING and then fails an [assert]:
    the [AssertionError] it raises has the empty text. *)
Definition failing_assert : M (Job.t * World.t) unit :=
  Job.set_status JobStatus.CALCULATING ;; raise "".

(** C7, on the code: [do_work] catches the error of the calculation
    and stores its text, and does not raise. When that text is empty,
    [finish_and_return_code] after it moves the job to SUCCESS, writes
    SUCCESS to the row of the job and returns the success code; the
    notifier gets no failure notice. *)
Theorem work_with_empty_error_ends_in_success calc force j w j1 w1 t :
  calc (Job.set_error PyNone j, w) = (Raised "", (j1, w1)) ->
  dict_get (tables w1) "Jobs" = Some t ->
  let failed := Job.set_error (PyStr "") j1 in
  Job.do_work calc (j, w) = (Ok tt, (failed, w1))
  /\ exists w',
      (Job.do_work calc ;; Job.finish_and_return_code force) (j, w)
      = (Ok JobStatus.SUCCESS_CODE,
         (Job.set_status_attr (PyStr JobStatus.SUCCESS) failed, w'))
      /\ dict_get (tables w') "Jobs"
         = Some (Engine.update t (status_values JobStatus.SUCCESS failed w1)
                   (DAO.choose_condition (Job.id failed) None))
      /\ outbox w'
         = (outbox w1
              ++ (if Signal.has_changed (Job.signal failed) || force
                  then [signal_change (Job.email failed)
                          (Signal.name (Job.signal failed))
                          (Job.Report
                             (Job.set_status_attr (PyStr JobStatus.SUCCESS) failed))]
                  else []))%list.
Proof.
  intros Hcalc Ht failed.
  pose proof (do_work_catches calc j w "" j1 w1 Hcalc) as Hwork.
  fold failed in Hwork. split; [exact Hwork |].
  destruct (finish_succeeded force failed w1 t eq_refl Ht) as (w' & Hfin & Hout & Htab).
  exists w'. split; [| split; [exact Htab | exact Hout]].
  unfold bind at 1. rewrite Hwork. exact Hfin.
Qed.

Lemma work_with_empty_error_ends_in_success_witness :
  let start := (Job.set_error PyNone Demo.job, Demo.world []) in
  failing_assert start
  = (Raised "", (fst (snd (failing_assert start)), snd (snd (failing_assert start))))
  /\ dict_get (tables (snd (snd (failing_assert start)))) "Jobs"
     = Some (Engine.mkTable (DAO.SCHEMA DAO.JobDAO)
               [[("id", Some "j1"); ("datetime", Some "20210101000000");
                 ("name", Some "doge"); ("status", Some "CALCULATING");
                 ("seconds_elapsed", Some "0.0")]])
  /\ fst ((Job.do_work failing_assert ;; Job.finish_and_return_code false)
            (Demo.job, Demo.world []))
     = Ok JobStatus.SUCCESS_CODE.
Proof.
  cbv zeta.
  refine (conj eq_refl (conj eq_refl _)).
  destruct (work_with_empty_error_ends_in_success failing_assert false Demo.job
              (Demo.world []) _ _ _ eq_refl eq_refl)
    as (_ & w' & E & _).
  rewrite E. reflexivity.
Defined.

(** The same run, read from the tables: the row of the job ends with
    SUCCESS, and nothing was sent. *)
Example failing_assert_run :
  let run :=
    (Job.do_work failing_assert ;; Job.finish_and_return_code false)
      (Demo.job, Demo.world []) in
  fst (failing_assert (Demo.job, Demo.world [])) = Raised ""
  /\ fst run = Ok JobStatus.SUCCESS_CODE
  /\ Job.error (fst (snd run)) = PyStr ""
  /\ Job.status (fst (snd run)) = PyStr "SUCCESS"
  /\ Demo.rows_of "Jobs" (snd (snd run))
     = [[("id", Some "j1"); ("datetime", Some "20210101000000"); ("name", Some "doge");
         ("status", Some "SUCCESS"); ("seconds_elapsed", Some "0.25")]]
  /\ outbox (snd (snd run)) = [].
Proof. vm_compute. repeat split. Qed.

(** C5, on the code: when the error that was captured is the empty
    text, [finish_and_return_code] takes the branch of a run without
    error: SUCCESS, the success code, and the success report when
    [has_changed] answers true or [force_email] is set; no failure
    notice. *)
Theorem finish_takes_empty_error_for_none force j w t :
  Job.error j = PyStr "" ->
  dict_get (tables w) "Jobs" = Some t ->
  let j' := Job.set_status_attr (PyStr JobStatus.SUCCESS) j in
  exists w',
    Job.finish_and_return_code force (j, w) = (Ok JobStatus.SUCCESS_CODE, (j', w'))
    /\ outbox w'
       = (outbox w
            ++ (if Signal.has_changed (Job.signal j) || force
                then [signal_change (Job.email j) (Signal.name (Job.signal j))
                                    (Job.Report j')]
                else []))%list
    /\ dict_get (tables w') "Jobs"
       = Some (Engine.update t (status_values JobStatus.SUCCESS j w)
                 (DAO.choose_condition (Job.id j) None)).
Proof.
  intros He Ht. apply finish_succeeded; [| exact Ht]. now rewrite He.
Qed.

Lemma finish_takes_empty_error_for_none_witness :
  let caught := snd (Job.do_work (raise "") (Demo.job, Demo.world [])) in
  Job.error (fst caught) = PyStr ""
  /\ dict_get (tables (snd caught)) "Jobs"
     = Some (Engine.mkTable (DAO.SCHEMA DAO.JobDAO) [Demo.job_row])
  /\ fst (Job.finish_and_return_code true caught) = Ok JobStatus.SUCCESS_CODE.
Proof.
  cbv zeta.
  refine (conj eq_refl (conj eq_refl _)).
  destruct (finish_takes_empty_error_for_none true
              (fst (snd (Job.do_work (raise "") (Demo.job, Demo.world []))))
              (snd (snd (Job.do_work (raise "") (Demo.job, Demo.world []))))
              _ eq_refl eq_refl)
    as (w' & E & _).
  rewrite (surjective_pairing (snd (Job.do_work (raise "") (Demo.job, Demo.world [])))).
  rewrite E. reflexivity.
Defined.

(** The same call, run: the success report is the one notice sent. *)
Example finish_after_empty_error_run :
  let caught := Job.do_work (raise "") (Demo.job, Demo.world []) in
  let run := Job.finish_and_return_code true (snd caught) in
  fst caught = Ok tt
  /\ Job.error (fst (snd caught)) = PyStr ""
  /\ fst run = Ok JobStatus.SUCCESS_CODE
  /\ Job.status (fst (snd run)) = PyStr "SUCCESS"
  /\ outbox (snd (snd run))
     = [signal_change (PyStr "ops@example.org") (PyStr "doge")
          (mkReport [] [(PyNone, PyNone)]
             [mkJobDict (PyStr "j1") (PyStr "doge") Demo.start (PyStr "SUCCESS")])].
Proof. vm_compute. repeat split. Qed.

(** ** A whole run *)

(** The calculation of the end-to-end scenario: one stored value, then a
    BUY at confidence 0.5. *)
Definition store_and_buy : M (Job.t * World.t) unit :=
  Job.store_value "x" (PyFloat (mkDec 314159 5)) ;;
  Job.set_signal (PyStr Signal.BUY) (PyFloat (mkDec 5 1)).

(** On a first run with precision 2: the value read back is 3.14, the
    signal is BUY at 0.5, the job ends in SUCCESS with the success code;
    no report is sent unless [force_email] is set, since [has_changed]
    answers false. *)
Example first_run_end_to_end :
  let run force :=
    (Job.do_work store_and_buy ;; Job.finish_and_return_code force)
      (Demo.job, Demo.world []) in
  fst (run false) = Ok JobStatus.SUCCESS_CODE
  /\ fst (Job.read_value "x" (snd (run false))) = Ok (PyFloat (mkDec 314 2))
  /\ Signal.as_dict (Job.signal (fst (snd (run false))))
     = (PyStr "BUY", PyFloat (mkDec 5 1))
  /\ Job.status (fst (snd (run false))) = PyStr "SUCCESS"
  /\ outbox (snd (snd (run false))) = []
  /\ length (outbox (snd (snd (run true)))) = 1%nat.
Proof. vm_compute. repeat split. Qed.

End WorkFacts.

(* ===================================================================== *)
(** * More on the record accessor *)
(* ===================================================================== *)

Module AccessorFacts.
Import Py Eff World DAOFacts.

(** ** Dictionaries *)






(** ** The mapping [new] inserts *)









(** ** Positional access *)

Lemma index_of_nth x l i : DAO.index_of x l = Some i -> nth_error l i = Some x.
Proof.
  revert i. induction l as [| y l IH]; intros i; simpl; [discriminate |].
  destruct (String.eqb y x) eqn:E.
  - intros [= <-]. apply String.eqb_eq in E. now subst.
  - destruct (DAO.index_of x l) as [k |]; simpl; [| discriminate].
    intros [= <-]. simpl. now apply IH.
Qed.

Lemma index_of_found x l : str_in x l = true -> exists i, DAO.index_of x l = Some i.
Proof.
  unfold str_in. induction l as [| y l IH]; simpl; [discriminate |].
  rewrite String.eqb_sym. destruct (String.eqb y x); [eauto |].
  simpl. intros H. destruct (IH H) as [i ->]. simpl. eauto.
Qed.

(** A field read back becomes a string, and NULL becomes [None]. *)
Definition read_back (c : option string) : value :=
  match c with
  | Some s => PyStr s
  | None => PyNone
  end.

Lemma field_of_column dao (r : Engine.row) c (w : World.t) :
  str_in c (DAO.SCHEMA dao) = true ->
  DAO.field (Engine.fields (DAO.SCHEMA dao) r) (DAO.get_column_index dao c) w
  = (Ok (read_back (Engine.cell r c)), w).
Proof.
  intros Hc. unfold DAO.get_column_index. rewrite Hc.
  destruct (index_of_found _ _ Hc) as [i Hi]. rewrite Hi.
  apply index_of_nth in Hi. unfold DAO.field, Engine.fields.
  rewrite (map_nth_error _ _ _ Hi).
  destruct (Engine.cell r c); reflexivity.
Qed.

(** X2. A row that [SELECT *] returned from a table whose columns are
    the schema of the DAO, indexed with [get_column_index] of a column of
    the schema, gives the cell of that column. For a name that is not in
    the schema the index is [None] and the indexing raises. *)
Theorem field_by_column_index dao (r : Engine.row) c (w : World.t) :
  (str_in c (DAO.SCHEMA dao) = true ->
   DAO.field (Engine.fields (DAO.SCHEMA dao) r) (DAO.get_column_index dao c) w
   = (Ok (read_back (Engine.cell r c)), w))
  /\ (str_in c (DAO.SCHEMA dao) = false ->
      DAO.get_column_index dao c = None
      /\ DAO.field (Engine.fields (DAO.SCHEMA dao) r) (DAO.get_column_index dao c) w
         = (Raised "tuple indices must be integers or slices, not NoneType", w)).
Proof.
  split; [apply field_of_column |].
  intros Hc. unfold DAO.get_column_index. rewrite Hc. split; reflexivity.
Qed.

(** ** Deleting *)




End AccessorFacts.

(* ===================================================================== *)
(** * What a new Signal or StoredValue loads *)
(* ===================================================================== *)

Module LoadFacts.
Import Py Eff World DAOFacts AccessorFacts.










(** ** StoredValue *)







(** ** From one run to the next *)







End LoadFacts.

(* ===================================================================== *)
(** * Storing and reading values, setting the signal *)
(* ===================================================================== *)

Module StoreFacts.
Import Py Eff World DAOFacts AccessorFacts LoadFacts.











Definition stored_log (key : string) (r : value) : level * string :=
  (INFO, "Stored value: " ++ key ++ ": " ++ str r).












(** ** [set_signal] *)

(** X9. [set_signal] with an action that is not one of the three, or
    with a confidence that is neither an int nor a float, raises and
    leaves the job and the world as they were: no row, no log record, and
    the signal of the job keeps its action and confidence. *)
Theorem set_signal_refused_changes_nothing j w action confidence :
  (mem action SignalFacts.actions = false ->
   Job.set_signal action confidence (j, w) = (Raised Signal.action_error, (j, w)))
  /\ (mem action SignalFacts.actions = true ->
      is_float confidence || is_int confidence = false ->
      Job.set_signal action confidence (j, w) = (Raised Signal.confidence_error, (j, w))).
Proof.
  split.
  - intros Ha. unfold Job.set_signal, bind, focus. cbn [fst snd].
    rewrite (SignalFacts.set_bad_action _ _ _ _ Ha). destruct j; reflexivity.
  - intros Ha Hc. unfold Job.set_signal, bind, focus. cbn [fst snd].
    rewrite (SignalFacts.set_not_a_number _ _ _ _ Ha Hc). destruct j; reflexivity.
Qed.

End StoreFacts.

(* ===================================================================== *)
(** * Creating the tables *)
(* ===================================================================== *)

Module InitiatorFacts.
Import Py Eff World DAOFacts AccessorFacts Tables.



Lemma schema_or_none (schema : list string) : schema_or None schema = schema.
Proof. reflexivity. Qed.



Definition tables_of (h : host) : Engine.db := tables (world h).










(** deploy.py run twice on a machine without the file: the statements,
    and what is printed. *)
Example deploy_twice :
  let h := mkHost false [] (World.mk Demo.ticking 0 [] [] [] []) in
  let once := snd (main h) in
  let twice := snd (main once) in
  executed (world once)
  = ["CREATE TABLE Jobs (id TEXT PRIMARY KEY,datetime TEXT ,name TEXT ,status TEXT ,seconds_elapsed TEXT );";
     "CREATE TABLE Signals (id TEXT PRIMARY KEY,job_id TEXT ,datetime TEXT ,name TEXT ,action TEXT ,confidence TEXT );";
     "CREATE TABLE StoredValues (id TEXT PRIMARY KEY,job_id TEXT ,datetime TEXT ,key TEXT ,value TEXT );"]
  /\ printed once
     = ["Created database file " ++ dq ++ "/Users/joshnicholls/Desktop/auto_crypto/data.db"
          ++ dq ++ "."]
  /\ tables_of twice = tables_of once
  /\ length (printed twice) = 4%nat.
Proof. vm_compute. repeat split. Qed.

End InitiatorFacts.

(* ===================================================================== *)
(** * Configuration, and the end of a failed job *)
(* ===================================================================== *)

Module ConfigurationFacts.
Import Py Eff Configuration.

Lemma filter_nil_forallb {A} (p : A -> bool) l :
  filter (fun x => negb (p x)) l = [] <-> forallb p l = true.
Proof.
  induction l as [| x l IH]; simpl; [tauto |].
  destruct (p x); simpl; [exact IH |]. split; discriminate.
Qed.

(** X12. [read_yaml] on a mapping returns the mapping when it holds
    every expected key, and raises otherwise with a message that lists
    the expected keys that are absent, in the order they are expected.
    Without a list of expected keys nothing is checked. On an empty file
    (the loader gives [None]) a non-empty list of expected keys makes the
    membership test itself fail. *)
Theorem read_yaml_checks_expected {V} (d : dict V) (expected : list string) :
  (forallb (dict_has d) expected = true ->
   read_yaml (Some d) (Some expected) = Ok (Some d))
  /\ (forallb (dict_has d) expected = false ->
      read_yaml (Some d) (Some expected)
      = Raised ("YAML file is missing expected items!: "
                  ++ String.concat ", "
                       (filter (fun i => negb (dict_has d i)) expected))
      /\ filter (fun i => negb (dict_has d i)) expected <> []
      /\ forall i, In i (filter (fun i => negb (dict_has d i)) expected)
                   <-> In i expected /\ dict_has d i = false)
  /\ read_yaml (Some d) None = Ok (Some d)
  /\ (forall i rest, read_yaml (@None (dict V)) (Some (i :: rest))
                     = Raised "argument of type 'NoneType' is not iterable")
  /\ read_yaml (@None (dict V)) (Some []) = Ok None.
Proof.
  split; [| split; [| repeat split]].
  - intros H. unfold read_yaml.
    now rewrite (proj2 (filter_nil_forallb (dict_has d) expected) H).
  - intros H.
    assert (Hne : filter (fun i => negb (dict_has d i)) expected <> []).
    { intros E. apply filter_nil_forallb in E. congruence. }
    split; [| split; [exact Hne |]].
    + unfold read_yaml, missing_error.
      destruct (filter (fun i => negb (dict_has d i)) expected); [contradiction |].
      reflexivity.
    + intros i. rewrite filter_In. rewrite negb_true_iff. tauto.
Qed.

(** A script file without its [variables], and a global file that has
    the three items it needs among others. *)
Example read_configs_run :
  read_script_configs (Some [("name", PyStr "doge"); ("email", PyStr "a@b.c")])
  = Raised "YAML file is missing expected items!: variables"
  /\ read_global_configs (Some [("name", PyStr "doge")])
     = Raised "YAML file is missing expected items!: db_path, log_directory, data_sources"
  /\ read_global_configs
       (Some [("log_directory", PyStr "logs"); ("db_path", PyStr "data.db");
              ("email", PyNone); ("data_sources", PyNone)])
     = Ok (Some [("log_directory", PyStr "logs"); ("db_path", PyStr "data.db");
                 ("email", PyNone); ("data_sources", PyNone)]).
Proof. vm_compute. repeat split. Qed.

End ConfigurationFacts.

Module FinishFacts.
Import Py Eff World.

Lemma finish_failed_witness :
  let j := Job.set_error (PyStr "Bad data request!") Demo.job in
  truthy (Job.error j) = true
  /\ dict_get (tables (Demo.world [])) "Jobs"
     = Some (Engine.mkTable (DAO.SCHEMA DAO.JobDAO) [Demo.job_row])
  /\ fst (Job.finish_and_return_code true (j, Demo.world [])) = Ok JobStatus.FAIL_CODE.
Proof.
  cbv zeta. refine (conj eq_refl (conj eq_refl _)).
  destruct (WorkFacts.finish_failed true
              (Job.set_error (PyStr "Bad data request!") Demo.job) (Demo.world [])
              _ eq_refl eq_refl)
    as (w' & E & _).
  rewrite E. reflexivity.
Defined.

End FinishFacts.

(* ===================================================================== *)
(** * The report *)
(* ===================================================================== *)

Module ReportFacts.
Import Py World Report.

Lemma append_nil_r s : s ++ "" = s.
Proof. induction s as [| c s IH]; simpl; [reflexivity | now rewrite IH]. Qed.

Lemma append_assoc a b c : (a ++ b) ++ c = a ++ (b ++ c).
Proof. induction a as [| x a IH]; simpl; [reflexivity | now rewrite IH]. Qed.

(** [''.join] of a list is the texts one after the other. *)
Fixpoint glue (l : list string) : string :=
  match l with
  | [] => ""
  | x :: rest => x ++ glue rest
  end.

Lemma join_glue l : String.concat "" l = glue l.
Proof.
  induction l as [| x l IH]; [reflexivity |].
  destruct l as [| y l]; [simpl; now rewrite append_nil_r |].
  change (String.concat "" (x :: y :: l)) with (x ++ "" ++ String.concat "" (y :: l)).
  rewrite IH. reflexivity.
Qed.

Lemma glue_app l1 l2 : glue (l1 ++ l2) = glue l1 ++ glue l2.
Proof.
  induction l1 as [| x l1 IH]; simpl; [reflexivity |].
  now rewrite IH, append_assoc.
Qed.

Lemma append_loop {A} (f : A -> string) l : forall parts,
  fold_left (fun parts x => (parts ++ [f x])%list) l parts = (parts ++ map f l)%list.
Proof.
  induction l as [| x l IH]; intros parts; simpl.
  - now rewrite app_nil_r.
  - rewrite IH, <- app_assoc. reflexivity.
Qed.

(** One cell: numbers (ints, bools, floats) are set in Courier New, and
    the text is the [str] of the value, as it is. *)
Definition cell_html (row_dict : dict item) (column : string) : string :=
  "<td style=" ++ dq
    ++ (if is_number (get row_dict column) then "font-family:'Courier New'" else "")
    ++ dq ++ ">" ++ item_str (get row_dict column) ++ "</td>".

Definition row_html (columns : list string) (row_dict : dict item) : string :=
  "<tr>" ++ glue (map (cell_html row_dict) columns) ++ "</tr>".

Definition table_html (rows : list (dict item)) (columns : list string) : string :=
  table_open ++ glue (map (fun c => "<th>" ++ c ++ "</th>") columns) ++ "</tr>"
    ++ glue (map (row_html columns) rows) ++ "</table>".

Definition section (rows : list (dict item)) (title : string) (columns : list string)
  : string :=
  match rows with
  | [] => ""
  | _ => "<h5>" ++ title ++ "</h5>" ++ table_html rows columns
  end.

Lemma dict_to_html_row_text row_dict columns :
  _dict_to_html_row row_dict columns = row_html columns row_dict.
Proof.
  unfold _dict_to_html_row, row_html.
  change (fold_left (cell_step row_dict) columns ["<tr>"])
    with (fold_left (fun parts x => (parts ++ [cell_html row_dict x])%list)
                    columns ["<tr>"]).
  rewrite (append_loop (cell_html row_dict) columns ["<tr>"]).
  rewrite join_glue, !glue_app. reflexivity.
Qed.

Lemma list_to_html_table_text rows columns :
  _list_to_html_table rows columns = table_html rows columns.
Proof.
  unfold _list_to_html_table, table_html.
  rewrite (append_loop (fun c => "<th>" ++ c ++ "</th>") columns [table_open]).
  rewrite (append_loop (fun row => _dict_to_html_row row columns) rows).
  rewrite join_glue, !glue_app.
  rewrite (map_ext _ (row_html columns) (fun row => dict_to_html_row_text row columns)).
  cbn [glue]. rewrite !append_nil_r, !append_assoc. reflexivity.
Qed.

Lemma report_html_text rows title columns :
  _report_html rows title columns = section rows title columns.
Proof.
  unfold _report_html, section. destruct rows as [| r rows]; [reflexivity |].
  rewrite join_glue, list_to_html_table_text. cbn [glue].
  rewrite append_nil_r.
  change (_html_title title) with ("<h5>" ++ (title ++ "</h5>")).
  now rewrite !append_assoc.
Qed.

(** X14. The HTML of the report of a job: the section of the signal,
    then the section of the stored values, which is absent when the job
    stored no value, then the section of the job; the first and the last
    are always there, so the text is never empty. A section is a title
    and a table; in a table the header cells are closed by a [</tr>]
    that nothing opened, and each item gives one row, of one cell per
    column in the order of the columns, with the [str] of the value put
    in as it is and a Courier New style on numbers alone. *)
Theorem report_html_sections (j : Job.t) :
  html (Job.Report j)
  = "<h5>New Signal</h5>"
      ++ table_html [signal_dict (Signal.as_dict (Job.signal j))] ["action"; "confidence"]
      ++ section (map stored_value_dict
                      (map StoredValue.as_dict (Job.get_all_stored_values j)))
                 "Stored Values" ["key"; "value"]
      ++ "<h5>Job</h5>"
      ++ table_html [job_as_dict (Job.as_dict j)] ["id"; "name"; "run_datetime"; "status"]
  /\ (Job.get_all_stored_values j = [] ->
      html (Job.Report j)
      = "<h5>New Signal</h5>"
          ++ table_html [signal_dict (Signal.as_dict (Job.signal j))]
                        ["action"; "confidence"]
          ++ "<h5>Job</h5>"
          ++ table_html [job_as_dict (Job.as_dict j)]
                        ["id"; "name"; "run_datetime"; "status"])
  /\ html (Job.Report j) <> "".
Proof.
  assert (H : html (Job.Report j)
              = "<h5>New Signal</h5>"
                  ++ table_html [signal_dict (Signal.as_dict (Job.signal j))]
                                ["action"; "confidence"]
                  ++ section (map stored_value_dict
                                  (map StoredValue.as_dict (Job.get_all_stored_values j)))
                             "Stored Values" ["key"; "value"]
                  ++ "<h5>Job</h5>"
                  ++ table_html [job_as_dict (Job.as_dict j)]
                                ["id"; "name"; "run_datetime"; "status"]).
  { unfold html, Job.Report. cbn [SIGNAL STORED_VALUES JOB map].
    rewrite join_glue, !report_html_text. cbn [glue section].
    rewrite append_nil_r.
    rewrite !append_assoc. reflexivity. }
  split; [exact H | split].
  - intros Hempty. rewrite H, Hempty. reflexivity.
  - rewrite H. discriminate.
Qed.

(** A row of the stored values: the number is styled, the text is not,
    and a text with markup goes into the page as it is. *)
Example stored_value_row_run :
  _dict_to_html_row (stored_value_dict (PyStr "<b>mean</b>", PyInt 3)) ["key"; "value"]
  = "<tr><td style=" ++ dq ++ dq ++ "><b>mean</b></td><td style=" ++ dq
      ++ "font-family:'Courier New'" ++ dq ++ ">3</td></tr>"
  /\ _dict_to_html_row (stored_value_dict (PyStr "mean", PyBool true)) ["value"; "unit"]
     = "<tr><td style=" ++ dq ++ "font-family:'Courier New'" ++ dq
         ++ ">True</td><td style=" ++ dq ++ dq ++ ">None</td></tr>".
Proof. vm_compute. repeat split. Qed.

End ReportFacts.
